(** * Network Performance Optimizer: scorer, stream-profile selector, optimizer

    A shallow embedding of [api/index.py].  Python [float] values are
    modelled as exact rationals ([Q]); decimal literals such as [0.5] are
    the exact decimal fractions.  Python exceptions are modelled with an
    error monad; the clock read by [datetime.now()] is an explicit argument
    of the two request handlers.  Module [F64] repeats the scorer, the
    selector and the optimizer on binary64 numbers, for what depends on
    rounding. *)

From Stdlib Require Import QArith Qround Qabs Qminmax ZArith List String Ascii.
From Stdlib Require Import Lia Lqa DecimalString Bool.
From Stdlib Require Floats.
Import ListNotations.

Open Scope Q_scope.

(** ** Python built-ins used by the module *)

Module Py.

(** Exceptions the module can raise. *)
Inductive exn : Type :=
| ValidationError      (* pydantic: a [Field] constraint is violated *)
| ZeroDivisionError    (* float division by zero *)
| ValueError.          (* [max()] of an empty sequence *)

Inductive result (A : Type) : Type :=
| Ok (a : A)
| Raise (e : exn).
Arguments Ok {A} a.
Arguments Raise {A} e.

Definition bind {A B} (m : result A) (k : A -> result B) : result B :=
  match m with
  | Ok a => k a
  | Raise e => Raise e
  end.

Fixpoint mapM {A B} (f : A -> result B) (l : list A) : result (list B) :=
  match l with
  | [] => Ok []
  | x :: xs =>
      bind (f x) (fun y => bind (mapM f xs) (fun ys => Ok (y :: ys)))
  end.

(** [x < y] on floats. *)
Definition lt (x y : Q) : bool := negb (Qle_bool y x).
(** [x >= y] on floats. *)
Definition ge (x y : Q) : bool := Qle_bool y x.
(** [x > y] on floats. *)
Definition gt (x y : Q) : bool := lt y x.
(** [x <= y] on floats. *)
Definition le (x y : Q) : bool := Qle_bool x y.

(** [min(a, b)]: the first argument unless the second is strictly
    smaller. *)
Definition min (a b : Q) : Q := if lt b a then b else a.

(** [max(a, b)]: the first argument unless the second is strictly
    larger. *)
Definition max (a b : Q) : Q := if gt b a then b else a.

(** [a / b] on floats. *)
Definition div (a b : Q) : result Q :=
  if Qeq_bool b 0 then Raise ZeroDivisionError else Ok (a / b).

(** The loop of [max(iterable, key=...)]: the running maximum is replaced
    only by an element whose key is strictly larger. *)
Fixpoint max_loop {A} (key : A -> Q) (best : A) (l : list A) : A :=
  match l with
  | [] => best
  | x :: xs => max_loop key (if gt (key x) (key best) then x else best) xs
  end.

(** [max(l, key=key)]. *)
Definition max_key {A} (key : A -> Q) (l : list A) : result A :=
  match l with
  | [] => Raise ValueError
  | x :: xs => Ok (max_loop key x xs)
  end.

(** Rounding to the nearest integer, ties to even, as the [.1f]
    conversion rounds the scaled value. *)
Definition round_half_even (x : Q) : Z :=
  let f := Qfloor x in
  let r := x - inject_Z f in
  if lt r (1 # 2) then f
  else if gt r (1 # 2) then (f + 1)%Z
  else if Z.even f then f else (f + 1)%Z.

Definition string_of_Z (z : Z) : string :=
  NilZero.string_of_uint (N.to_uint (Z.to_N z)).

(** [f"{x:.1f}"]: sign, integer digits, a point and one decimal. *)
Definition format_1f (x : Q) : string :=
  let t := round_half_even (Qabs x * 10) in
  ((if lt x 0 then "-" else "")
     ++ string_of_Z (t / 10) ++ "." ++ string_of_Z (t mod 10))%string.

End Py.

Notation "x <- m ;; k" := (Py.bind m (fun x => k))
  (at level 61, m at next level, right associativity).

(** ** numpy *)

Module Np.

(** [np.linspace(start, stop, num)] with the default [endpoint=True]:
    [div = num - 1], [step = (stop - start) / div], the samples are
    [arange(0, num) * step + start] (scaled as [arange / div * delta]
    when the step is zero, and as [arange * delta] when [div] is zero),
    and the last sample is overwritten with [stop] when [num > 1]. *)
Definition linspace (start stop : Q) (num : nat) : list Q :=
  let div := (num - 1)%nat in
  let qdiv := inject_Z (Z.of_nat div) in
  let delta := stop - start in
  let y := map (fun i : nat => inject_Z (Z.of_nat i)) (seq 0 num) in
  let y :=
    if (0 <? div)%nat then
      let step := delta / qdiv in
      if Qeq_bool step 0
      then map (fun v => v / qdiv * delta) y
      else map (fun v => v * step) y
    else map (fun v => v * delta) y in
  let y := map (fun v => v + start) y in
  if (1 <? num)%nat then firstn div y ++ [stop] else y.

End Np.

(** ** Data model *)

(** [class NetworkConditions(BaseModel)]. *)
Record NetworkConditions : Type := {
  bandwidth : Q;
  throughput : Q;
  packet_loss : Q;
  latency : Q;
  jitter : Q
}.

(** The [Field] constraints of [NetworkConditions]:
    [gt=0]; [ge=0, le=1]; [ge=0, le=100]; [ge=0]; [ge=0]. *)
Definition constraints_ok (c : NetworkConditions) : bool :=
  Py.gt (bandwidth c) 0
  && (Py.ge (throughput c) 0 && Py.le (throughput c) 1)
  && (Py.ge (packet_loss c) 0 && Py.le (packet_loss c) 100)
  && Py.ge (latency c) 0
  && Py.ge (jitter c) 0.

(** Construction of a [NetworkConditions] from keyword arguments: pydantic
    validates the fields. *)
Definition NetworkConditions_new (c : NetworkConditions)
  : Py.result NetworkConditions :=
  if constraints_ok c then Py.Ok c else Py.Raise Py.ValidationError.

(** The declared input domain, as a proposition. *)
Definition valid (c : NetworkConditions) : Prop :=
  0 < bandwidth c
  /\ (0 <= throughput c /\ throughput c <= 1)
  /\ (0 <= packet_loss c /\ packet_loss c <= 100)
  /\ 0 <= latency c
  /\ 0 <= jitter c.

(** [test_conditions = conditions.dict(); test_conditions['bandwidth'] = bw]. *)
Definition with_bandwidth (c : NetworkConditions) (bw : Q) : NetworkConditions :=
  {| bandwidth := bw;
     throughput := throughput c;
     packet_loss := packet_loss c;
     latency := latency c;
     jitter := jitter c |}.

(** [class NetworkAnalysis(BaseModel)]. *)
Record NetworkAnalysis : Type := {
  network_score : Q;
  congestion_level : string;
  performance_rating : string;
  recommendations : list string
}.

(** ** Scorer: [analyze_network] *)

(** Lines 29-34: the score before normalisation. *)
Definition raw_score (c : NetworkConditions) : Q :=
  let score := 100 in
  let score := score - packet_loss c * 2 in
  let score := score - latency c * 0.5 in
  let score := score - jitter c * 5 in
  let score := score + throughput c * 20 in
  let score := score + Py.min (bandwidth c * 5) 30 in
  score.

(** Line 37: [max(0, min(100, score))]. *)
Definition normalize (score : Q) : Q := Py.max 0 (Py.min 100 score).

(** Lines 40-47. *)
Definition congestion_of (score : Q) : string :=
  if Py.ge score 80 then "Low"
  else if Py.ge score 60 then "Moderate"
  else if Py.ge score 40 then "High"
  else "Severe".

(** Lines 50-59. *)
Definition rating_of (score : Q) : string :=
  if Py.ge score 90 then "Excellent"
  else if Py.ge score 75 then "Good"
  else if Py.ge score 60 then "Fair"
  else if Py.ge score 40 then "Poor"
  else "Critical".

Definition msg_packet_loss : string :=
  "High packet loss detected. Consider checking network hardware or ISP service.".
Definition msg_latency : string :=
  "High latency detected. Consider using a closer server or check network routing.".
Definition msg_jitter : string :=
  "High jitter detected. QoS settings adjustment recommended.".
Definition msg_throughput : string :=
  "Low throughput detected. Bandwidth upgrade or traffic optimization recommended.".

(** Lines 62-70: the list starts empty and each test appends to it. *)
Definition recommendations_of (c : NetworkConditions) : list string :=
  let recommendations := [] in
  let recommendations :=
    if Py.gt (packet_loss c) 5
    then recommendations ++ [msg_packet_loss] else recommendations in
  let recommendations :=
    if Py.gt (latency c) 100
    then recommendations ++ [msg_latency] else recommendations in
  let recommendations :=
    if Py.gt (jitter c) 30
    then recommendations ++ [msg_jitter] else recommendations in
  let recommendations :=
    if Py.lt (throughput c) 0.3
    then recommendations ++ [msg_throughput] else recommendations in
  recommendations.

Definition analyze_network (c : NetworkConditions) : NetworkAnalysis :=
  let score := normalize (raw_score c) in
  {| network_score := score;
     congestion_level := congestion_of score;
     performance_rating := rating_of score;
     recommendations := recommendations_of c |}.

(** ** Stream-profile selector: [get_video_recommendations] *)

(** The dictionary returned by [get_video_recommendations]. *)
Record StreamProfile : Type := {
  resolution : string;
  fps : Z;
  bitrate : string;
  codec : string;
  streaming_quality : string
}.

Definition get_video_recommendations (c : NetworkConditions) (score : Q)
  : StreamProfile :=
  if Py.ge score 80 then
    {| resolution := "4K (2160p)";
       fps := 60;
       bitrate := Py.format_1f (Py.min (bandwidth c * 0.8) 35) ++ " Mbps";
       codec := "H.265/HEVC";
       streaming_quality := "Ultra High" |}
  else if Py.ge score 60 then
    {| resolution := "1080p";
       fps := 30;
       bitrate := Py.format_1f (Py.min (bandwidth c * 0.7) 15) ++ " Mbps";
       codec := "H.264/AVC";
       streaming_quality := "High" |}
  else if Py.ge score 40 then
    {| resolution := "720p";
       fps := 30;
       bitrate := Py.format_1f (Py.min (bandwidth c * 0.6) 8) ++ " Mbps";
       codec := "H.264/AVC";
       streaming_quality := "Medium" |}
  else
    {| resolution := "480p";
       fps := 24;
       bitrate := Py.format_1f (Py.min (bandwidth c * 0.5) 4) ++ " Mbps";
       codec := "H.264/AVC";
       streaming_quality := "Low" |}.

(** ** Request handlers *)

(** What a handler gives back: the response dictionary, or the
    [HTTPException] its [except Exception] clause raises. *)
Inductive response (A : Type) : Type :=
| Success (a : A)
| HTTPException (status_code : Z) (cause : Py.exn).
Arguments Success {A} a.
Arguments HTTPException {A} status_code cause.

(** [try: ... except Exception as e: raise HTTPException(status_code=500, ...)]. *)
Definition try_except {A} (body : Py.result A) : response A :=
  match body with
  | Py.Ok a => Success a
  | Py.Raise e => HTTPException 500 e
  end.

(** *** POST /analyze *)

Record AnalyzeOptimization : Type := {
  current_bandwidth : Q;
  recommended_bandwidth : Q;
  potential_improvement : string
}.

Record AnalyzeResponse : Type := {
  analyze_timestamp : string;
  input_conditions : NetworkConditions;
  analysis_results : NetworkAnalysis;
  optimization : AnalyzeOptimization;
  video_streaming : StreamProfile;
  analyze_status : string
}.

Definition analyze_network_conditions (now : string) (c : NetworkConditions)
  : response AnalyzeResponse :=
  try_except (
    let analysis := analyze_network c in
    let video_rec := get_video_recommendations c (network_score analysis) in
    let current_throughput := throughput c in
    let optimal_bandwidth := bandwidth c in
    let optimal_bandwidth :=
      if Py.lt (network_score analysis) 60
      then bandwidth c * 1.5 else optimal_bandwidth in
    ratio <- Py.div optimal_bandwidth (bandwidth c) ;;
    Py.Ok
      {| analyze_timestamp := now;
         input_conditions := c;
         analysis_results := analysis;
         optimization :=
           {| current_bandwidth := bandwidth c;
              recommended_bandwidth := optimal_bandwidth;
              potential_improvement :=
                Py.format_1f (Py.min ((ratio - 1) * 100) 100) ++ "%" |};
         video_streaming := video_rec;
         analyze_status := "success" |}).

(** *** POST /optimize *)

Record OptimizationStep : Type := {
  step_bandwidth : Q;
  predicted_score : Q;
  step_congestion_level : string;
  video_quality : StreamProfile
}.

Record CurrentConditions : Type := {
  cur_bandwidth : Q;
  cur_throughput : Q;
  cur_packet_loss : Q;
  cur_latency : Q;
  cur_jitter : Q;
  current_congestion : string;
  current_score : Q
}.

Record PerformanceMetrics : Type := {
  bandwidth_improvement : string;
  quality_improvement : string;
  network_efficiency : string
}.

Record OptimalConfiguration : Type := {
  optimal_bandwidth : Q;
  optimal_predicted_score : Q;
  predicted_congestion : string;
  congestion_reduction : string;
  optimal_video_quality : StreamProfile;
  performance_metrics : PerformanceMetrics
}.

Record OptimizeResponse : Type := {
  optimize_timestamp : string;
  current_conditions : CurrentConditions;
  optimal_configuration : OptimalConfiguration;
  step_by_step_optimization : list OptimizationStep;
  optimize_recommendations : list string;
  optimize_status : string
}.

(** Lines 175-187: the body of the loop over the candidate bandwidths. *)
Definition optimization_step (c : NetworkConditions) (bw : Q)
  : Py.result OptimizationStep :=
  let test_conditions := with_bandwidth c bw in
  tc <- NetworkConditions_new test_conditions ;;
  let test_analysis := analyze_network tc in
  tc' <- NetworkConditions_new test_conditions ;;
  let video_rec := get_video_recommendations tc' (network_score test_analysis) in
  Py.Ok
    {| step_bandwidth := bw;
       predicted_score := network_score test_analysis;
       step_congestion_level := congestion_level test_analysis;
       video_quality := video_rec |}.

(** Lines 169-171: the candidate bandwidths. *)
Definition candidates (c : NetworkConditions) : list Q :=
  let min_bw := bandwidth c * 0.5 in
  let max_bw := bandwidth c * 2.0 in
  Np.linspace min_bw max_bw 10.

Definition optimize_network (now : string) (c : NetworkConditions)
  : response OptimizeResponse :=
  try_except (
    let analysis := analyze_network c in
    let steps := candidates c in
    optimization_steps <- Py.mapM (optimization_step c) steps ;;
    optimal_step <- Py.max_key predicted_score optimization_steps ;;
    let initial_congestion := 100 - network_score analysis in
    let optimal_congestion := 100 - predicted_score optimal_step in
    let congestion_reduction := initial_congestion - optimal_congestion in
    bw_ratio <- Py.div (step_bandwidth optimal_step) (bandwidth c) ;;
    efficiency <-
      Py.div (predicted_score optimal_step) (step_bandwidth optimal_step) ;;
    Py.Ok
      {| optimize_timestamp := now;
         current_conditions :=
           {| cur_bandwidth := bandwidth c;
              cur_throughput := throughput c;
              cur_packet_loss := packet_loss c;
              cur_latency := latency c;
              cur_jitter := jitter c;
              current_congestion := Py.format_1f initial_congestion ++ "%";
              current_score := network_score analysis |};
         optimal_configuration :=
           {| optimal_bandwidth := step_bandwidth optimal_step;
              optimal_predicted_score := predicted_score optimal_step;
              predicted_congestion := step_congestion_level optimal_step;
              congestion_reduction :=
                Py.format_1f congestion_reduction ++ "%";
              optimal_video_quality := video_quality optimal_step;
              performance_metrics :=
                {| bandwidth_improvement :=
                     Py.format_1f ((bw_ratio - 1) * 100) ++ "%";
                   quality_improvement :=
                     Py.format_1f
                       (predicted_score optimal_step - network_score analysis)
                       ++ "%";
                   network_efficiency :=
                     Py.format_1f efficiency ++ " score/Mbps" |} |};
         step_by_step_optimization := optimization_steps;
         optimize_recommendations := recommendations analysis;
         optimize_status := "success" |}).

(** ** Notions used to state the properties *)

(** Quality order of the congestion levels, worst first. *)
Definition congestion_quality (band : string) : nat :=
  if (band =? "Low")%string then 3
  else if (band =? "Moderate")%string then 2
  else if (band =? "High")%string then 1
  else 0.

(** Quality order of the performance ratings, worst first. *)
Definition rating_quality (band : string) : nat :=
  if (band =? "Excellent")%string then 4
  else if (band =? "Good")%string then 3
  else if (band =? "Fair")%string then 2
  else if (band =? "Poor")%string then 1
  else 0.

(** The four gates with their messages, in the order of the source. *)
Definition gates (c : NetworkConditions) : list (bool * string) :=
  [ (Py.gt (packet_loss c) 5, msg_packet_loss);
    (Py.gt (latency c) 100, msg_latency);
    (Py.gt (jitter c) 30, msg_jitter);
    (Py.lt (throughput c) 0.3, msg_throughput) ].

(** Two scores select the same tier when the selector returns the same
    profile for them, whatever the conditions. *)
Definition same_tier (s1 s2 : Q) : Prop :=
  forall c, get_video_recommendations c s1 = get_video_recommendations c s2.

(** The tier changes exactly where the performance rating changes. *)
Definition tier_follows_rating : Prop :=
  forall s1 s2, same_tier s1 s2 <-> rating_of s1 = rating_of s2.

(** The candidate of index [i], as the specification writes it. *)
Definition candidate_formula (c : NetworkConditions) (i : nat) : Q :=
  let min_bw := bandwidth c * 0.5 in
  let max_bw := bandwidth c * 2.0 in
  min_bw + inject_Z (Z.of_nat i) * (max_bw - min_bw) / 9.

(** The step recorded for a candidate that passes validation. *)
Definition scored_step (c : NetworkConditions) (bw : Q) : OptimizationStep :=
  let tc := with_bandwidth c bw in
  let test_analysis := analyze_network tc in
  {| step_bandwidth := bw;
     predicted_score := network_score test_analysis;
     step_congestion_level := congestion_level test_analysis;
     video_quality := get_video_recommendations tc (network_score test_analysis) |}.

(** The pairs of congestion level and performance rating that the two
    ladders of [analyze_network] can produce together. *)
Definition band_pairs : list (string * string) :=
  [ ("Low", "Excellent"); ("Low", "Good"); ("Moderate", "Good");
    ("Moderate", "Fair"); ("High", "Poor"); ("Severe", "Critical") ]%string.

(** [c1] is at least as good a link as [c2] in each of the five fields. *)
Definition at_least_as_good (c1 c2 : NetworkConditions) : Prop :=
  bandwidth c2 <= bandwidth c1
  /\ throughput c2 <= throughput c1
  /\ packet_loss c1 <= packet_loss c2
  /\ latency c1 <= latency c2
  /\ jitter c1 <= jitter c2.

(** The streaming quality that [get_video_recommendations] pairs with each
    congestion level. *)
Definition quality_for_congestion (level : string) : string :=
  if (level =? "Low")%string then "Ultra High"
  else if (level =? "Moderate")%string then "High"
  else if (level =? "High")%string then "Medium"
  else "Low".

(** ** The two examples of the specification *)

Definition example_good : NetworkConditions :=
  {| bandwidth := 10; throughput := 0.5; packet_loss := 0;
     latency := 20; jitter := 5 |}.

Definition example_degenerate : NetworkConditions :=
  {| bandwidth := 1; throughput := 0; packet_loss := 20;
     latency := 200; jitter := 50 |}.

(** ** The optimizer in binary64

    The exact model above drops the rounding of Python's [float].  The
    module below repeats the scorer, the selector and [optimize_network]
    on IEEE 754 binary64 numbers, with the operations of the hardware, for
    the properties that depend on rounding, underflow or overflow. *)

Module F64.

Import PrimFloat SpecFloat FloatOps.
#[local] Open Scope float_scope.
#[local] Set Warnings "-inexact-float".

(** [x > y], [x >= y], [x < y], [x <= y] on floats; each is false when an
    operand is [nan]. *)
Definition gt (x y : float) : bool := y <? x.
Definition ge (x y : float) : bool := y <=? x.
Definition lt (x y : float) : bool := x <? y.
Definition le (x y : float) : bool := x <=? y.

(** [min(a, b)] and [max(a, b)]: the first argument unless the second is
    strictly smaller (larger). *)
Definition min (a b : float) : float := if lt b a then b else a.
Definition max (a b : float) : float := if gt b a then b else a.

(** [a / b]: Python raises when the divisor is zero, of either sign. *)
Definition div (a b : float) : Py.result float :=
  if b =? 0 then Py.Raise Py.ZeroDivisionError else Py.Ok (a / b).

(** The loop of [max(iterable, key=...)]. *)
Fixpoint max_loop {A} (key : A -> float) (best : A) (l : list A) : A :=
  match l with
  | [] => best
  | x :: xs => max_loop key (if gt (key x) (key best) then x else best) xs
  end.

Definition max_key {A} (key : A -> float) (l : list A) : Py.result A :=
  match l with
  | [] => Py.Raise Py.ValueError
  | x :: xs => Py.Ok (max_loop key x xs)
  end.

(** The exact value of a finite float [(-1)^s * m * 2^e]. *)
Definition Q_of_finite (s : bool) (m : positive) (e : Z) : Q :=
  let z := if s then Zneg m else Zpos m in
  match e with
  | Z0 => inject_Z z
  | Zpos p => inject_Z (z * 2 ^ Zpos p)
  | Zneg p => Qmake z (2 ^ p)
  end.

(** [f"{x:.1f}"]: the exact value, correctly rounded to one decimal. *)
Definition format_1f (x : float) : string :=
  match Prim2SF x with
  | S754_zero s => if s then "-0.0" else "0.0"
  | S754_infinity s => if s then "-inf" else "inf"
  | S754_nan => "nan"
  | S754_finite s m e => Py.format_1f (Q_of_finite s m e)
  end.

(** The float of a small natural number, as [arange] produces it. *)
Fixpoint of_nat (n : nat) : float :=
  match n with
  | O => 0
  | S k => of_nat k + 1
  end.

(** [np.linspace(start, stop, num)], every operation rounded. *)
Definition linspace (start stop : float) (num : nat) : list float :=
  let div := (num - 1)%nat in
  let fdiv := of_nat div in
  let delta := stop - start in
  let y := map of_nat (seq 0 num) in
  let y :=
    if (0 <? div)%nat then
      let step := delta / fdiv in
      if step =? 0
      then map (fun v => v / fdiv * delta) y
      else map (fun v => v * step) y
    else map (fun v => v * delta) y in
  let y := map (fun v => v + start) y in
  if (1 <? num)%nat then firstn div y ++ [stop] else y.

Record NetworkConditions : Type := {
  bandwidth : float;
  throughput : float;
  packet_loss : float;
  latency : float;
  jitter : float
}.

(** The [Field] constraints; a [nan] satisfies none of them. *)
Definition constraints_ok (c : NetworkConditions) : bool :=
  gt (bandwidth c) 0
  && (ge (throughput c) 0 && le (throughput c) 1)
  && (ge (packet_loss c) 0 && le (packet_loss c) 100)
  && ge (latency c) 0
  && ge (jitter c) 0.

Definition NetworkConditions_new (c : NetworkConditions)
  : Py.result NetworkConditions :=
  if constraints_ok c then Py.Ok c else Py.Raise Py.ValidationError.

Definition with_bandwidth (c : NetworkConditions) (bw : float)
  : NetworkConditions :=
  {| bandwidth := bw;
     throughput := throughput c;
     packet_loss := packet_loss c;
     latency := latency c;
     jitter := jitter c |}.

Record NetworkAnalysis : Type := {
  network_score : float;
  congestion_level : string;
  performance_rating : string;
  recommendations : list string
}.

Definition analyze_network (c : NetworkConditions) : NetworkAnalysis :=
  let score := 100 in
  let score := score - packet_loss c * 2 in
  let score := score - latency c * 0.5 in
  let score := score - jitter c * 5 in
  let score := score + throughput c * 20 in
  let score := score + min (bandwidth c * 5) 30 in
  let score := max 0 (min 100 score) in
  let congestion :=
    (if ge score 80 then "Low"
     else if ge score 60 then "Moderate"
     else if ge score 40 then "High"
     else "Severe")%string in
  let rating :=
    (if ge score 90 then "Excellent"
     else if ge score 75 then "Good"
     else if ge score 60 then "Fair"
     else if ge score 40 then "Poor"
     else "Critical")%string in
  let recommendations : list string := [] in
  let recommendations :=
    if gt (packet_loss c) 5
    then recommendations ++ [msg_packet_loss] else recommendations in
  let recommendations :=
    if gt (latency c) 100
    then recommendations ++ [msg_latency] else recommendations in
  let recommendations :=
    if gt (jitter c) 30
    then recommendations ++ [msg_jitter] else recommendations in
  let recommendations :=
    if lt (throughput c) 0.3
    then recommendations ++ [msg_throughput] else recommendations in
  {| network_score := score;
     congestion_level := congestion;
     performance_rating := rating;
     recommendations := recommendations |}.

Definition get_video_recommendations (c : NetworkConditions) (score : float)
  : StreamProfile :=
  if ge score 80 then
    {| resolution := "4K (2160p)";
       fps := 60;
       bitrate := format_1f (min (bandwidth c * 0.8) 35) ++ " Mbps";
       codec := "H.265/HEVC";
       streaming_quality := "Ultra High" |}
  else if ge score 60 then
    {| resolution := "1080p";
       fps := 30;
       bitrate := format_1f (min (bandwidth c * 0.7) 15) ++ " Mbps";
       codec := "H.264/AVC";
       streaming_quality := "High" |}
  else if ge score 40 then
    {| resolution := "720p";
       fps := 30;
       bitrate := format_1f (min (bandwidth c * 0.6) 8) ++ " Mbps";
       codec := "H.264/AVC";
       streaming_quality := "Medium" |}
  else
    {| resolution := "480p";
       fps := 24;
       bitrate := format_1f (min (bandwidth c * 0.5) 4) ++ " Mbps";
       codec := "H.264/AVC";
       streaming_quality := "Low" |}.

Record OptimizationStep : Type := {
  step_bandwidth : float;
  predicted_score : float;
  step_congestion_level : string;
  video_quality : StreamProfile
}.

Record CurrentConditions : Type := {
  cur_bandwidth : float;
  cur_throughput : float;
  cur_packet_loss : float;
  cur_latency : float;
  cur_jitter : float;
  current_congestion : string;
  current_score : float
}.

Record OptimalConfiguration : Type := {
  optimal_bandwidth : float;
  optimal_predicted_score : float;
  predicted_congestion : string;
  congestion_reduction : string;
  optimal_video_quality : StreamProfile;
  performance_metrics : PerformanceMetrics
}.

Record OptimizeResponse : Type := {
  optimize_timestamp : string;
  current_conditions : CurrentConditions;
  optimal_configuration : OptimalConfiguration;
  step_by_step_optimization : list OptimizationStep;
  optimize_recommendations : list string;
  optimize_status : string
}.

Definition optimization_step (c : NetworkConditions) (bw : float)
  : Py.result OptimizationStep :=
  let test_conditions := with_bandwidth c bw in
  tc <- NetworkConditions_new test_conditions ;;
  let test_analysis := analyze_network tc in
  tc' <- NetworkConditions_new test_conditions ;;
  let video_rec := get_video_recommendations tc' (network_score test_analysis) in
  Py.Ok
    {| step_bandwidth := bw;
       predicted_score := network_score test_analysis;
       step_congestion_level := congestion_level test_analysis;
       video_quality := video_rec |}.

Definition candidates (c : NetworkConditions) : list float :=
  let min_bw := bandwidth c * 0.5 in
  let max_bw := bandwidth c * 2.0 in
  linspace min_bw max_bw 10.

Definition optimize_network (now : string) (c : NetworkConditions)
  : response OptimizeResponse :=
  try_except (
    let analysis := analyze_network c in
    let steps := candidates c in
    optimization_steps <- Py.mapM (optimization_step c) steps ;;
    optimal_step <- max_key predicted_score optimization_steps ;;
    let initial_congestion := 100 - network_score analysis in
    let optimal_congestion := 100 - predicted_score optimal_step in
    let congestion_reduction := initial_congestion - optimal_congestion in
    bw_ratio <- div (step_bandwidth optimal_step) (bandwidth c) ;;
    efficiency <-
      div (predicted_score optimal_step) (step_bandwidth optimal_step) ;;
    Py.Ok
      {| optimize_timestamp := now;
         current_conditions :=
           {| cur_bandwidth := bandwidth c;
              cur_throughput := throughput c;
              cur_packet_loss := packet_loss c;
              cur_latency := latency c;
              cur_jitter := jitter c;
              current_congestion := format_1f initial_congestion ++ "%";
              current_score := network_score analysis |};
         optimal_configuration :=
           {| optimal_bandwidth := step_bandwidth optimal_step;
              optimal_predicted_score := predicted_score optimal_step;
              predicted_congestion := step_congestion_level optimal_step;
              congestion_reduction :=
                format_1f congestion_reduction ++ "%";
              optimal_video_quality := video_quality optimal_step;
              performance_metrics :=
                {| bandwidth_improvement :=
                     format_1f ((bw_ratio - 1) * 100) ++ "%";
                   quality_improvement :=
                     format_1f
                       (predicted_score optimal_step - network_score analysis)
                       ++ "%";
                   network_efficiency :=
                     format_1f efficiency ++ " score/Mbps" |} |};
         step_by_step_optimization := optimization_steps;
         optimize_recommendations := recommendations analysis;
         optimize_status := "success" |}).

(** The step recorded for a candidate that passes validation. *)
Definition scored_step (c : NetworkConditions) (bw : float) : OptimizationStep :=
  let tc := with_bandwidth c bw in
  let test_analysis := analyze_network tc in
  {| step_bandwidth := bw;
     predicted_score := network_score test_analysis;
     step_congestion_level := congestion_level test_analysis;
     video_quality := get_video_recommendations tc (network_score test_analysis) |}.

(** Every candidate of every valid input is strictly positive. *)
Definition candidates_positive : Prop :=
  forall c, constraints_ok c = true ->
            Forall (fun bw => gt bw 0 = true) (candidates c).

(** A valid link whose bandwidth is the smallest positive float,
    [5e-324]. *)
Definition example_underflow : NetworkConditions :=
  {| bandwidth := 0x1p-1074; throughput := 0.5; packet_loss := 0;
     latency := 20; jitter := 5 |}.

(** A valid link whose doubled bandwidth overflows, [1e308]. *)
Definition example_overflow : NetworkConditions :=
  {| bandwidth := 1e308; throughput := 0.5; packet_loss := 0;
     latency := 20; jitter := 5 |}.

(** The first example of the specification. *)
Definition example_good : NetworkConditions :=
  {| bandwidth := 10; throughput := 0.5; packet_loss := 0;
     latency := 20; jitter := 5 |}.

End F64.

(** * Properties *)

(** ** Comparisons, [min] and [max] *)

Lemma lt_iff (x y : Q) : Py.lt x y = true <-> x < y.
Proof.
  unfold Py.lt. rewrite negb_true_iff, <- not_true_iff_false, Qle_bool_iff.
  split; [apply Qnot_le_lt | apply Qlt_not_le].
Qed.

Lemma ge_iff (x y : Q) : Py.ge x y = true <-> y <= x.
Proof. unfold Py.ge. apply Qle_bool_iff. Qed.

Lemma lt_reflect (x y : Q) : reflect (x < y) (Py.lt x y).
Proof. apply iff_reflect. symmetry. apply lt_iff. Qed.

Lemma ge_reflect (x y : Q) : reflect (y <= x) (Py.ge x y).
Proof. apply iff_reflect. symmetry. apply ge_iff. Qed.

Lemma min_is_Qmin (a b : Q) : Py.min a b = Qmin a b.
Proof.
  unfold Py.min, Qmin, GenericMinMax.gmin.
  destruct (Qcompare a b) eqn:E, (lt_reflect b a) as [H | H];
    try reflexivity.
  - apply Qeq_alt in E. rewrite E in H. now apply Qlt_irrefl in H.
  - apply Qlt_alt in E. exfalso. apply (Qlt_irrefl a). now apply Qlt_trans with b.
  - apply Qgt_alt in E. contradiction.
Qed.

Lemma max_is_Qmax (a b : Q) : Py.max a b = Qmax a b.
Proof.
  unfold Py.max, Py.gt, Qmax, GenericMinMax.gmax.
  destruct (Qcompare a b) eqn:E, (lt_reflect a b) as [H | H];
    try reflexivity.
  - apply Qeq_alt in E. rewrite E in H. now apply Qlt_irrefl in H.
  - apply Qlt_alt in E. contradiction.
  - apply Qgt_alt in E. exfalso. apply (Qlt_irrefl a). now apply Qlt_trans with b.
Qed.

Lemma min_cases (a b : Q) :
  (a <= b /\ Py.min a b = a) \/ (b < a /\ Py.min a b = b).
Proof.
  unfold Py.min. destruct (lt_reflect b a) as [H | H]; [now right | left].
  split; [now apply Qnot_lt_le | reflexivity].
Qed.

Lemma max_cases (a b : Q) :
  (b <= a /\ Py.max a b = a) \/ (a < b /\ Py.max a b = b).
Proof.
  unfold Py.max, Py.gt. destruct (lt_reflect a b) as [H | H]; [now right | left].
  split; [now apply Qnot_lt_le | reflexivity].
Qed.

Lemma normalize_bounds (s : Q) : 0 <= normalize s /\ normalize s <= 100.
Proof.
  unfold normalize.
  destruct (min_cases 100 s) as [[H1 ->] | [H1 ->]];
    destruct (max_cases 0 100) as [[H2 E2] | [H2 E2]];
    destruct (max_cases 0 s) as [[H3 E3] | [H3 E3]];
    rewrite ?E2, ?E3; lra.
Qed.

Lemma normalize_cases (s : Q) :
  (s <= 0 /\ normalize s == 0)
  \/ (0 < s < 100 /\ normalize s = s)
  \/ (100 <= s /\ normalize s == 100).
Proof.
  unfold normalize.
  destruct (min_cases 100 s) as [[H1 ->] | [H1 ->]].
  - right; right. split; [exact H1 |].
    destruct (max_cases 0 100) as [[H2 ->] | [H2 ->]]; lra.
  - destruct (max_cases 0 s) as [[H3 ->] | [H3 ->]].
    + left. split; [exact H3 | reflexivity].
    + right; left. split; [lra | reflexivity].
Qed.

Lemma normalize_mono (s t : Q) : s <= t -> normalize s <= normalize t.
Proof.
  intros H.
  destruct (normalize_cases s) as [[Hs Es] | [[Hs Es] | [Hs Es]]];
    destruct (normalize_cases t) as [[Ht Et] | [[Ht Et] | [Ht Et]]];
    rewrite ?Es, ?Et; lra.
Qed.

#[local] Instance normalize_compat : Proper (Qeq ==> Qeq) normalize.
Proof.
  intros s t H. apply Qle_antisym; apply normalize_mono; lra.
Qed.

(** ** Scorer *)

Ltac band_cases :=
  repeat match goal with
         | |- context [Py.ge ?s ?t] => destruct (ge_reflect s t)
         | H : context [Py.ge ?s ?t] |- _ => destruct (ge_reflect s t)
         end.

Lemma congestion_of_mono (s t : Q) :
  s <= t ->
  (congestion_quality (congestion_of s) <= congestion_quality (congestion_of t))%nat.
Proof.
  intros H. unfold congestion_of. band_cases; cbn; try lia; exfalso; lra.
Qed.

Lemma rating_of_mono (s t : Q) :
  s <= t -> (rating_quality (rating_of s) <= rating_quality (rating_of t))%nat.
Proof.
  intros H. unfold rating_of. band_cases; cbn; try lia; exfalso; lra.
Qed.

#[local] Instance congestion_of_compat : Proper (Qeq ==> eq) congestion_of.
Proof.
  intros s t H. unfold congestion_of.
  band_cases; try reflexivity; exfalso; lra.
Qed.

#[local] Instance rating_of_compat : Proper (Qeq ==> eq) rating_of.
Proof.
  intros s t H. unfold rating_of.
  band_cases; try reflexivity; exfalso; lra.
Qed.

Lemma congestion_of_table (s : Q) :
  (80 <= s -> congestion_of s = "Low"%string)
  /\ (60 <= s < 80 -> congestion_of s = "Moderate"%string)
  /\ (40 <= s < 60 -> congestion_of s = "High"%string)
  /\ (s < 40 -> congestion_of s = "Severe"%string).
Proof.
  unfold congestion_of.
  repeat split; intros H; band_cases; try reflexivity; exfalso; lra.
Qed.

Lemma rating_of_table (s : Q) :
  (90 <= s -> rating_of s = "Excellent"%string)
  /\ (75 <= s < 90 -> rating_of s = "Good"%string)
  /\ (60 <= s < 75 -> rating_of s = "Fair"%string)
  /\ (40 <= s < 60 -> rating_of s = "Poor"%string)
  /\ (s < 40 -> rating_of s = "Critical"%string).
Proof.
  unfold rating_of.
  repeat split; intros H; band_cases; try reflexivity; exfalso; lra.
Qed.

(** C1.  The scorer computes
    [raw = 100 - packet_loss*2 - latency*0.5 - jitter*5 + throughput*20
           + min(bandwidth*5, 30)]
    and returns [raw] clamped to [[0, 100]]; the returned score therefore
    lies between 0 and 100.  This holds for every input, in particular for
    every valid one. *)
Theorem C1_score_formula_and_clamp (c : NetworkConditions) :
  raw_score c ==
    100 - packet_loss c * 2 - latency c * 0.5 - jitter c * 5
    + throughput c * 20 + Qmin (bandwidth c * 5) 30
  /\ network_score (analyze_network c) = Qmax 0 (Qmin 100 (raw_score c))
  /\ 0 <= network_score (analyze_network c)
  /\ network_score (analyze_network c) <= 100.
Proof.
  split; [| split].
  - unfold raw_score. rewrite min_is_Qmin. reflexivity.
  - cbn [analyze_network network_score]. unfold normalize.
    now rewrite min_is_Qmin, max_is_Qmax.
  - cbn [analyze_network network_score]. apply normalize_bounds.
Qed.

(** C2.  [congestion_level] and [performance_rating] are functions of the
    final clamped score alone (equal scores give identical bands), with the
    thresholds 80/60/40 for Low/Moderate/High/Severe and 90/75/60/40 for
    Excellent/Good/Fair/Poor/Critical, and both bands are non-decreasing in
    quality as the score increases. *)
Theorem C2_bands_of_score :
  (forall c1 c2,
      network_score (analyze_network c1) == network_score (analyze_network c2) ->
      congestion_level (analyze_network c1) = congestion_level (analyze_network c2)
      /\ performance_rating (analyze_network c1)
         = performance_rating (analyze_network c2))
  /\ (forall c,
         let a := analyze_network c in
         let s := network_score a in
         ((80 <= s -> congestion_level a = "Low"%string)
          /\ (60 <= s < 80 -> congestion_level a = "Moderate"%string)
          /\ (40 <= s < 60 -> congestion_level a = "High"%string)
          /\ (s < 40 -> congestion_level a = "Severe"%string))
         /\ ((90 <= s -> performance_rating a = "Excellent"%string)
             /\ (75 <= s < 90 -> performance_rating a = "Good"%string)
             /\ (60 <= s < 75 -> performance_rating a = "Fair"%string)
             /\ (40 <= s < 60 -> performance_rating a = "Poor"%string)
             /\ (s < 40 -> performance_rating a = "Critical"%string)))
  /\ (forall c1 c2,
         network_score (analyze_network c1) <= network_score (analyze_network c2) ->
         (congestion_quality (congestion_level (analyze_network c1))
          <= congestion_quality (congestion_level (analyze_network c2)))%nat
         /\ (rating_quality (performance_rating (analyze_network c1))
             <= rating_quality (performance_rating (analyze_network c2)))%nat).
Proof.
  split; [| split].
  - intros c1 c2 H. cbn in *. now rewrite H.
  - intros c. cbn. split; [apply congestion_of_table | apply rating_of_table].
  - intros c1 c2 H. cbn in *.
    split; [now apply congestion_of_mono | now apply rating_of_mono].
Qed.

Lemma recommendations_of_gates (c : NetworkConditions) :
  recommendations_of c = map snd (filter fst (gates c)).
Proof.
  unfold recommendations_of, gates, Py.gt.
  destruct (Py.lt 5 (packet_loss c)), (Py.lt 100 (latency c)),
    (Py.lt 30 (jitter c)), (Py.lt (throughput c) 0.3); reflexivity.
Qed.

(** C5.  The recommendations are produced by four independent gates on the
    input fields, [packet_loss > 5], [latency > 100], [jitter > 30] and
    [throughput < 0.3]: the list is the fixed sequence of the four messages
    restricted to the gates that hold (so the messages present keep that
    order), each message is present exactly when its gate holds, whatever
    the bandwidth and the score are, and the list is empty exactly when the
    four gates are false. *)
Theorem C5_recommendation_gates (c : NetworkConditions) :
  let r := recommendations (analyze_network c) in
  r = map snd (filter fst (gates c))
  /\ ((In msg_packet_loss r <-> 5 < packet_loss c)
      /\ (In msg_latency r <-> 100 < latency c)
      /\ (In msg_jitter r <-> 30 < jitter c)
      /\ (In msg_throughput r <-> throughput c < 0.3))
  /\ (r = [] <->
      ~ 5 < packet_loss c /\ ~ 100 < latency c
      /\ ~ 30 < jitter c /\ ~ throughput c < 0.3)
  /\ (forall bw, recommendations (analyze_network (with_bandwidth c bw)) = r).
Proof.
  cbn zeta. cbn [analyze_network recommendations].
  split; [apply recommendations_of_gates |].
  split; [| split; [| reflexivity]].
  - unfold recommendations_of, Py.gt.
    destruct (lt_reflect 5 (packet_loss c)), (lt_reflect 100 (latency c)),
      (lt_reflect 30 (jitter c)), (lt_reflect (throughput c) 0.3);
      cbn [app In];
      repeat split; intros H; try tauto;
      repeat (destruct H as [H | H]; try discriminate H); try contradiction.
  - unfold recommendations_of, Py.gt.
    destruct (lt_reflect 5 (packet_loss c)), (lt_reflect 100 (latency c)),
      (lt_reflect 30 (jitter c)), (lt_reflect (throughput c) 0.3);
      cbn [app]; split; intros H; try discriminate H; try tauto.
Qed.

(** ** Formatting *)

#[local] Instance lt_compat : Proper (Qeq ==> Qeq ==> eq) Py.lt.
Proof.
  intros x x' Hx y y' Hy.
  destruct (lt_reflect x y), (lt_reflect x' y'); try reflexivity; exfalso; lra.
Qed.

#[local] Instance ge_compat : Proper (Qeq ==> Qeq ==> eq) Py.ge.
Proof.
  intros x x' Hx y y' Hy.
  destruct (ge_reflect x y), (ge_reflect x' y'); try reflexivity; exfalso; lra.
Qed.

#[local] Instance round_half_even_compat : Proper (Qeq ==> eq) Py.round_half_even.
Proof.
  intros x y H. unfold Py.round_half_even, Py.gt.
  rewrite (Qfloor_comp _ _ H).
  assert (E : x - inject_Z (Qfloor y) == y - inject_Z (Qfloor y)) by now rewrite H.
  now rewrite !E.
Qed.

#[local] Instance format_1f_compat : Proper (Qeq ==> eq) Py.format_1f.
Proof.
  intros x y H. unfold Py.format_1f.
  assert (E : Qabs x * 10 == Qabs y * 10) by now rewrite H.
  now rewrite E, H.
Qed.

(** ** Stream-profile selector *)

(** C7.  For every conditions and score the selector returns the profile of
    the tier table, with bitrate [min(bandwidth * fraction, cap)] printed
    with one decimal; the profile is determined by the bandwidth and the
    score. *)
Theorem C7_profile_table (c : NetworkConditions) (score : Q) :
  (80 <= score ->
   get_video_recommendations c score =
     {| resolution := "4K (2160p)"; fps := 60;
        bitrate := Py.format_1f (Qmin (bandwidth c * 0.8) 35) ++ " Mbps";
        codec := "H.265/HEVC"; streaming_quality := "Ultra High" |})
  /\ (60 <= score < 80 ->
      get_video_recommendations c score =
        {| resolution := "1080p"; fps := 30;
           bitrate := Py.format_1f (Qmin (bandwidth c * 0.7) 15) ++ " Mbps";
           codec := "H.264/AVC"; streaming_quality := "High" |})
  /\ (40 <= score < 60 ->
      get_video_recommendations c score =
        {| resolution := "720p"; fps := 30;
           bitrate := Py.format_1f (Qmin (bandwidth c * 0.6) 8) ++ " Mbps";
           codec := "H.264/AVC"; streaming_quality := "Medium" |})
  /\ (score < 40 ->
      get_video_recommendations c score =
        {| resolution := "480p"; fps := 24;
           bitrate := Py.format_1f (Qmin (bandwidth c * 0.5) 4) ++ " Mbps";
           codec := "H.264/AVC"; streaming_quality := "Low" |})
  /\ (forall c' score',
         bandwidth c' == bandwidth c -> score' == score ->
         get_video_recommendations c' score' = get_video_recommendations c score).
Proof.
  unfold get_video_recommendations. rewrite <- !min_is_Qmin.
  repeat split; try (intros H; band_cases; try reflexivity; exfalso; lra).
  intros c' score' Hb Hs. rewrite !Hs.
  assert (E8 : Py.min (bandwidth c' * 0.8) 35 == Py.min (bandwidth c * 0.8) 35)
    by (rewrite !min_is_Qmin; now rewrite Hb).
  assert (E7 : Py.min (bandwidth c' * 0.7) 15 == Py.min (bandwidth c * 0.7) 15)
    by (rewrite !min_is_Qmin; now rewrite Hb).
  assert (E6 : Py.min (bandwidth c' * 0.6) 8 == Py.min (bandwidth c * 0.6) 8)
    by (rewrite !min_is_Qmin; now rewrite Hb).
  assert (E5 : Py.min (bandwidth c' * 0.5) 4 == Py.min (bandwidth c * 0.5) 4)
    by (rewrite !min_is_Qmin; now rewrite Hb).
  now rewrite E8, E7, E6, E5.
Qed.

Lemma same_tier_iff_quality (s1 s2 : Q) :
  same_tier s1 s2 <->
  streaming_quality (get_video_recommendations example_good s1)
  = streaming_quality (get_video_recommendations example_good s2).
Proof.
  split.
  - intros H. now rewrite (H example_good).
  - unfold same_tier, get_video_recommendations. intros H c.
    destruct (Py.ge s1 80), (Py.ge s1 60), (Py.ge s1 40),
      (Py.ge s2 80), (Py.ge s2 60), (Py.ge s2 40);
      try reflexivity; discriminate H.
Qed.

(** C6, as stated, fails: the scores 76 and 85 have the same performance
    rating (Good) and different tiers (1080p, 2160p), and the scores 85 and
    95 have the same tier (2160p) and different ratings (Good, Excellent). *)
Lemma C6_tier_rating_counterexample : ~ tier_follows_rating.
Proof.
  intros H. destruct (H 76 85) as [_ H1].
  specialize (H1 eq_refl example_good). discriminate H1.
Qed.

(** C6, amended.  The tier boundaries of the stream-profile selector
    (80/60/40) are those of the scorer's congestion level: two scores select
    the same tier exactly when they have the same congestion level.  The
    performance rating shares only the boundaries 60 and 40: below 75 the
    tier and the rating change at the same scores. *)
Theorem C6_tier_follows_congestion (s1 s2 : Q) :
  (same_tier s1 s2 <-> congestion_of s1 = congestion_of s2)
  /\ (s1 < 75 -> s2 < 75 -> (same_tier s1 s2 <-> rating_of s1 = rating_of s2)).
Proof.
  rewrite same_tier_iff_quality.
  unfold get_video_recommendations, congestion_of, rating_of.
  split; [| intros H1 H2];
    (split; intros H; band_cases; cbn in *;
     try reflexivity; try discriminate H; exfalso; lra).
Qed.

Lemma C6_tier_follows_congestion_witness :
  same_tier 10 20 <-> rating_of 10 = rating_of 20.
Proof.
  apply (C6_tier_follows_congestion 10 20); reflexivity.
Defined.

(** ** POST /analyze *)

Lemma div_pos (a b : Q) : 0 < b -> Py.div a b = Py.Ok (a / b).
Proof.
  intros H. unfold Py.div.
  destruct (Qeq_bool b 0) eqn:E; [| reflexivity].
  apply Qeq_bool_eq in E. lra.
Qed.

Lemma half_more_ratio (b : Q) : 0 < b -> (b * 1.5 / b - 1) * 100 == 50.
Proof. intros H. field. lra. Qed.

Lemma same_ratio (b : Q) : 0 < b -> (b / b - 1) * 100 == 0.
Proof. intros H. field. lra. Qed.

(** C9.  For every valid input the analyze operation succeeds; when the
    current score is below 60 the recommended bandwidth is the current
    bandwidth times 1.5 and otherwise it is the current bandwidth; the
    reported potential improvement is [(recommended / current - 1) * 100]
    capped at 100 and printed with one decimal, that is 50.0% below 60 and
    0.0% otherwise.  The three values are given by the current bandwidth and
    the current score alone: no candidate grid enters them. *)
Theorem C9_analyze_heuristic (now : string) (c : NetworkConditions) :
  valid c ->
  exists r,
    analyze_network_conditions now c = Success r
    /\ analysis_results r = analyze_network c
    /\ current_bandwidth (optimization r) = bandwidth c
    /\ recommended_bandwidth (optimization r) =
         (if Py.lt (network_score (analyze_network c)) 60
          then bandwidth c * 1.5 else bandwidth c)
    /\ (let v := Qmin ((recommended_bandwidth (optimization r)
                        / current_bandwidth (optimization r) - 1) * 100) 100 in
        potential_improvement (optimization r) = (Py.format_1f v ++ "%")%string
        /\ v <= 100)
    /\ (network_score (analyze_network c) < 60 ->
        potential_improvement (optimization r) = "50.0%"%string)
    /\ (60 <= network_score (analyze_network c) ->
        potential_improvement (optimization r) = "0.0%"%string).
Proof.
  intros (Hb & _). unfold analyze_network_conditions.
  rewrite (div_pos _ _ Hb). cbn [Py.bind try_except].
  eexists. split; [reflexivity |].
  cbn [analysis_results optimization current_bandwidth recommended_bandwidth
         potential_improvement].
  rewrite min_is_Qmin.
  repeat split.
  - apply Q.le_min_r.
  - intros Hs. destruct (lt_reflect (network_score (analyze_network c)) 60);
      [| contradiction].
    rewrite (half_more_ratio _ Hb). reflexivity.
  - intros Hs. destruct (lt_reflect (network_score (analyze_network c)) 60);
      [exfalso; lra |].
    rewrite (same_ratio _ Hb). reflexivity.
Qed.

Lemma C9_analyze_heuristic_witness :
  exists r,
    analyze_network_conditions "2026-01-01T00:00:00" example_degenerate = Success r
    /\ recommended_bandwidth (optimization r) == 1.5
    /\ potential_improvement (optimization r) = "50.0%"%string.
Proof.
  destruct (C9_analyze_heuristic "2026-01-01T00:00:00" example_degenerate)
    as (r & E & _ & _ & Hrec & _ & Hlow & _).
  - vm_compute. repeat split; discriminate.
  - exists r. split; [exact E |]. split.
    + rewrite Hrec. reflexivity.
    + apply Hlow. vm_compute. reflexivity.
Defined.

(** ** Optimizer *)

Lemma candidates_length (c : NetworkConditions) : List.length (candidates c) = 10%nat.
Proof.
  unfold candidates, Np.linspace.
  change (10 - 1)%nat with 9%nat.
  change (0 <? 9)%nat with true. change (1 <? 10)%nat with true.
  cbv beta iota zeta.
  destruct (Qeq_bool _ 0); reflexivity.
Qed.

Lemma candidates_nth (c : NetworkConditions) (i : nat) :
  (i < 10)%nat -> nth i (candidates c) 0 == candidate_formula c i.
Proof.
  intros Hi. unfold candidates, Np.linspace, candidate_formula.
  change (10 - 1)%nat with 9%nat.
  change (0 <? 9)%nat with true. change (1 <? 10)%nat with true.
  cbv beta iota zeta.
  destruct (Qeq_bool _ 0);
    do 10 (destruct i as [| i];
           [cbn [seq map firstn app nth Z.of_nat inject_Z Pos.of_succ_nat Pos.succ];
            field |]);
    lia.
Qed.

Lemma mapM_ok {A B} (f : A -> Py.result B) (g : A -> B) (l : list A) :
  (forall x, In x l -> f x = Py.Ok (g x)) -> Py.mapM f l = Py.Ok (map g l).
Proof.
  induction l as [| x xs IH]; intros H; [reflexivity |].
  cbn [Py.mapM map]. rewrite (H x (or_introl eq_refl)). cbn [Py.bind].
  rewrite IH; [reflexivity |].
  intros y Hy. apply H. now right.
Qed.

(** [max] with a key returns the first element of largest key. *)
Lemma max_loop_first {A} (key : A -> Q) (l : list A) (best : A) :
  exists k,
    nth_error (best :: l) k = Some (Py.max_loop key best l)
    /\ (forall x, In x (best :: l) -> key x <= key (Py.max_loop key best l))
    /\ (forall j x, (j < k)%nat -> nth_error (best :: l) j = Some x ->
                    key x < key (Py.max_loop key best l)).
Proof.
  revert best. induction l as [| x xs IH]; intros best.
  - exists 0%nat. cbn [Py.max_loop]. repeat split.
    + intros y [<- | []]. apply Qle_refl.
    + intros j y Hj. lia.
  - cbn [Py.max_loop]. unfold Py.gt.
    destruct (lt_reflect (key best) (key x)) as [Hlt | Hge].
    + destruct (IH x) as (k & Hk & Hall & Hbefore).
      set (m := Py.max_loop key x xs) in *.
      assert (Hx : key x <= key m) by (apply Hall; now left).
      exists (S k). repeat split.
      * exact Hk.
      * intros y [<- | Hy]; [lra | now apply Hall].
      * intros [| j] y Hj Hy; cbn [nth_error] in Hy.
        -- injection Hy as <-. lra.
        -- apply (Hbefore j); [lia | exact Hy].
    + destruct (IH best) as (k & Hk & Hall & Hbefore).
      set (m := Py.max_loop key best xs) in *.
      apply Qnot_lt_le in Hge.
      assert (Hb : key best <= key m) by (apply Hall; now left).
      destruct k as [| k].
      * exists 0%nat. cbn [nth_error] in *. repeat split.
        -- exact Hk.
        -- injection Hk as Hk.
           intros y [<- | [<- | Hy]]; [exact Hb | rewrite <- Hk; exact Hge |].
           apply Hall. now right.
        -- intros j y Hj. lia.
      * exists (S (S k)). cbn [nth_error] in *.
        assert (Hbm : key best < key m) by (apply (Hbefore 0%nat); [lia | reflexivity]).
        repeat split.
        -- exact Hk.
        -- intros y [<- | [<- | Hy]]; [exact Hb | lra |]. apply Hall. now right.
        -- intros [| [| j]] y Hj Hy; cbn [nth_error] in Hy.
           ++ injection Hy as <-. exact Hbm.
           ++ injection Hy as <-. lra.
           ++ apply (Hbefore (S j)); [lia | exact Hy].
Qed.

Lemma max_key_first {A} (key : A -> Q) (l : list A) :
  l <> [] ->
  exists m k,
    Py.max_key key l = Py.Ok m
    /\ nth_error l k = Some m
    /\ (forall x, In x l -> key x <= key m)
    /\ (forall j x, (j < k)%nat -> nth_error l j = Some x -> key x < key m).
Proof.
  destruct l as [| x xs]; [congruence | intros _].
  destruct (max_loop_first key xs x) as (k & H).
  exists (Py.max_loop key x xs), k. split; [reflexivity | exact H].
Qed.

Lemma constraints_ok_iff (c : NetworkConditions) :
  constraints_ok c = true <-> valid c.
Proof.
  unfold constraints_ok, valid, Py.gt, Py.le.
  rewrite !andb_true_iff, lt_iff, !ge_iff, !Qle_bool_iff. tauto.
Qed.

Lemma with_bandwidth_valid (c : NetworkConditions) (bw : Q) :
  valid c -> 0 < bw -> valid (with_bandwidth c bw).
Proof. unfold valid. cbn. tauto. Qed.

Lemma optimization_step_valid (c : NetworkConditions) (bw : Q) :
  valid c -> 0 < bw -> optimization_step c bw = Py.Ok (scored_step c bw).
Proof.
  intros Hc Hbw. unfold optimization_step, NetworkConditions_new.
  assert (E : constraints_ok (with_bandwidth c bw) = true)
    by now apply constraints_ok_iff, with_bandwidth_valid.
  rewrite E. reflexivity.
Qed.

Lemma candidate_formula_linear (c : NetworkConditions) (i : nat) :
  candidate_formula c i
  == bandwidth c * ((3 + inject_Z (Z.of_nat i)) * (1 # 6)).
Proof. unfold candidate_formula. cbv zeta. field. Qed.

(** The grid of a positive bandwidth. *)
Section PositiveBandwidth.

Variable c : NetworkConditions.
Hypothesis Hb : 0 < bandwidth c.

Lemma candidate_formula_range (i : nat) :
  (i < 10)%nat ->
  bandwidth c * 0.5 <= candidate_formula c i
  /\ candidate_formula c i <= bandwidth c * 2.0.
Proof.
  intros Hi. rewrite candidate_formula_linear.
  assert (H0 : inject_Z 0 <= inject_Z (Z.of_nat i))
    by (rewrite <- Zle_Qle; lia).
  assert (H9 : inject_Z (Z.of_nat i) <= inject_Z 9)
    by (rewrite <- Zle_Qle; lia).
  change (inject_Z 0) with 0 in H0. change (inject_Z 9) with 9 in H9.
  nra.
Qed.

Lemma candidate_formula_increasing (i j : nat) :
  (i < j)%nat -> candidate_formula c i < candidate_formula c j.
Proof.
  intros Hij. rewrite !candidate_formula_linear.
  assert (H : inject_Z (Z.of_nat i) < inject_Z (Z.of_nat j))
    by (rewrite <- Zlt_Qlt; lia).
  nra.
Qed.

Lemma candidates_range (bw : Q) :
  In bw (candidates c) ->
  bandwidth c * 0.5 <= bw /\ bw <= bandwidth c * 2.0.
Proof.
  intros Hin.
  destruct (In_nth _ _ 0 Hin) as (i & Hi & <-).
  rewrite candidates_length in Hi.
  rewrite (candidates_nth c i Hi). now apply candidate_formula_range.
Qed.

Lemma candidates_pos (bw : Q) : In bw (candidates c) -> 0 < bw.
Proof.
  intros Hin. destruct (candidates_range bw Hin) as [H _]. lra.
Qed.

End PositiveBandwidth.

Lemma with_own_bandwidth (c : NetworkConditions) :
  with_bandwidth c (bandwidth c) = c.
Proof. now destruct c. Qed.

Lemma score_mono_bandwidth (c : NetworkConditions) (b1 b2 : Q) :
  b1 <= b2 ->
  network_score (analyze_network (with_bandwidth c b1))
  <= network_score (analyze_network (with_bandwidth c b2)).
Proof.
  intros H. cbn [analyze_network network_score]. apply normalize_mono.
  unfold raw_score. cbn [with_bandwidth bandwidth throughput packet_loss latency jitter].
  destruct (min_cases (b1 * 5) 30) as [[H1 ->] | [H1 ->]];
    destruct (min_cases (b2 * 5) 30) as [[H2 ->] | [H2 ->]]; lra.
Qed.

Lemma score_compat_bandwidth (c : NetworkConditions) (b1 b2 : Q) :
  b1 == b2 ->
  network_score (analyze_network (with_bandwidth c b1))
  == network_score (analyze_network (with_bandwidth c b2)).
Proof.
  intros H. apply Qle_antisym; apply score_mono_bandwidth; lra.
Qed.

(** What [optimize_network] returns on a valid input. *)
Lemma optimize_network_valid (now : string) (c : NetworkConditions) :
  valid c ->
  exists r opt k,
    optimize_network now c = Success r
    /\ step_by_step_optimization r = map (scored_step c) (candidates c)
    /\ nth_error (step_by_step_optimization r) k = Some opt
    /\ (forall x, In x (step_by_step_optimization r) ->
                  predicted_score x <= predicted_score opt)
    /\ (forall j x, (j < k)%nat ->
                    nth_error (step_by_step_optimization r) j = Some x ->
                    predicted_score x < predicted_score opt)
    /\ 0 < step_bandwidth opt
    /\ current_score (current_conditions r) = network_score (analyze_network c)
    /\ optimal_configuration r =
       {| optimal_bandwidth := step_bandwidth opt;
          optimal_predicted_score := predicted_score opt;
          predicted_congestion := step_congestion_level opt;
          congestion_reduction :=
            Py.format_1f
              ((100 - network_score (analyze_network c))
               - (100 - predicted_score opt)) ++ "%";
          optimal_video_quality := video_quality opt;
          performance_metrics :=
            {| bandwidth_improvement :=
                 Py.format_1f ((step_bandwidth opt / bandwidth c - 1) * 100) ++ "%";
               quality_improvement :=
                 Py.format_1f
                   (predicted_score opt - network_score (analyze_network c)) ++ "%";
               network_efficiency :=
                 Py.format_1f (predicted_score opt / step_bandwidth opt)
                   ++ " score/Mbps" |} |}.
Proof.
  intros Hc. assert (Hb : 0 < bandwidth c) by apply Hc.
  unfold optimize_network.
  rewrite (mapM_ok _ (scored_step c)).
  2:{ intros bw Hbw. apply optimization_step_valid; [exact Hc |].
      now apply candidates_pos with c. }
  cbn [Py.bind].
  destruct (max_key_first predicted_score (map (scored_step c) (candidates c)))
    as (opt & k & Emax & Hk & Hall & Hfirst).
  { intros E. apply (f_equal (@List.length _)) in E.
    rewrite length_map, candidates_length in E. discriminate E. }
  rewrite Emax. cbn [Py.bind].
  assert (Hopt : 0 < step_bandwidth opt).
  { apply nth_error_In in Hk. apply in_map_iff in Hk.
    destruct Hk as (bw & <- & Hbw). cbn. now apply candidates_pos with c. }
  rewrite (div_pos _ _ Hb), (div_pos _ _ Hopt). cbn [Py.bind try_except].
  eexists. exists opt, k. split; [reflexivity |].
  cbn [step_by_step_optimization current_conditions current_score
         optimal_configuration].
  repeat split; assumption.
Qed.

Lemma steps_nth_error (c : NetworkConditions) (i : nat) (s : OptimizationStep) :
  nth_error (map (scored_step c) (candidates c)) i = Some s ->
  (i < 10)%nat /\ s = scored_step c (nth i (candidates c) 0).
Proof.
  intros H.
  assert (Hi : (i < 10)%nat).
  { rewrite <- (candidates_length c), <- (length_map (scored_step c)).
    apply nth_error_Some. congruence. }
  split; [exact Hi |].
  rewrite nth_error_map in H.
  rewrite (nth_error_nth' _ 0) in H by now rewrite candidates_length.
  cbn [option_map] in H. now injection H as <-.
Qed.

(** C3.  For every valid input the optimizer generates exactly 10 candidate
    bandwidths, [candidate[i] = min_bw + i * (max_bw - min_bw) / 9] with
    [min_bw = bandwidth * 0.5] and [max_bw = bandwidth * 2.0]; they are
    strictly increasing, the first is [0.5 * bandwidth] and the last is
    [2.0 * bandwidth]; and the response holds one step per candidate, in
    order, scored on the input with only the bandwidth replaced. *)
Theorem C3_candidate_grid (now : string) (c : NetworkConditions) :
  valid c ->
  List.length (candidates c) = 10%nat
  /\ (forall i, (i < 10)%nat -> nth i (candidates c) 0 == candidate_formula c i)
  /\ (forall i j, (i < j < 10)%nat ->
                  nth i (candidates c) 0 < nth j (candidates c) 0)
  /\ nth 0 (candidates c) 0 == 0.5 * bandwidth c
  /\ nth 9 (candidates c) 0 == 2.0 * bandwidth c
  /\ exists r,
      optimize_network now c = Success r
      /\ List.length (step_by_step_optimization r) = 10%nat
      /\ map step_bandwidth (step_by_step_optimization r) = candidates c
      /\ forall i s,
          nth_error (step_by_step_optimization r) i = Some s ->
          let tc := with_bandwidth c (step_bandwidth s) in
          let a := analyze_network tc in
          (bandwidth tc = nth i (candidates c) 0
           /\ throughput tc = throughput c
           /\ packet_loss tc = packet_loss c
           /\ latency tc = latency c
           /\ jitter tc = jitter c)
          /\ predicted_score s = network_score a
          /\ step_congestion_level s = congestion_level a
          /\ video_quality s = get_video_recommendations tc (network_score a).
Proof.
  intros Hc. assert (Hb : 0 < bandwidth c) by apply Hc.
  split; [apply candidates_length |].
  split; [apply candidates_nth |].
  split.
  { intros i j [Hij Hj]. rewrite !candidates_nth by lia.
    now apply candidate_formula_increasing. }
  split.
  { rewrite candidates_nth by lia. rewrite candidate_formula_linear.
    cbn [Z.of_nat inject_Z]. field. }
  split.
  { rewrite candidates_nth by lia. rewrite candidate_formula_linear.
    cbn [Z.of_nat inject_Z Pos.of_succ_nat Pos.succ]. field. }
  destruct (optimize_network_valid now c Hc) as (r & opt & k & E & Hsteps & _).
  exists r. split; [exact E |]. rewrite Hsteps.
  split; [now rewrite length_map, candidates_length |].
  split.
  { rewrite map_map. cbn [scored_step step_bandwidth]. apply map_id. }
  intros i s Hs. apply steps_nth_error in Hs. destruct Hs as [_ ->].
  cbv zeta. cbn [scored_step step_bandwidth predicted_score
                   step_congestion_level video_quality].
  repeat split.
Qed.

Lemma C3_candidate_grid_witness :
  map Qred (candidates example_degenerate)
  = [1 # 2; 2 # 3; 5 # 6; 1; 7 # 6; 4 # 3; 3 # 2; 5 # 3; 11 # 6; 2]
  /\ nth 0 (candidates example_degenerate) 0 == 0.5 * bandwidth example_degenerate.
Proof.
  split; [vm_compute; reflexivity |].
  apply (C3_candidate_grid "2026-01-01T00:00:00" example_degenerate).
  vm_compute. repeat split; discriminate.
Defined.

(** C4.  The step the optimizer selects has a predicted score at least that
    of each of the 10 generated steps, and it is the first step of largest
    predicted score in generation order: every earlier step has a strictly
    smaller predicted score, and every step with the same predicted score
    has a bandwidth at least as large. *)
Theorem C4_optimal_is_first_maximum (now : string) (c : NetworkConditions) :
  valid c ->
  exists r opt k,
    optimize_network now c = Success r
    /\ nth_error (step_by_step_optimization r) k = Some opt
    /\ (optimal_bandwidth (optimal_configuration r) = step_bandwidth opt
        /\ optimal_predicted_score (optimal_configuration r) = predicted_score opt
        /\ predicted_congestion (optimal_configuration r) = step_congestion_level opt
        /\ optimal_video_quality (optimal_configuration r) = video_quality opt)
    /\ (forall s, In s (step_by_step_optimization r) ->
                  predicted_score s
                  <= optimal_predicted_score (optimal_configuration r))
    /\ (forall j s, (j < k)%nat ->
                    nth_error (step_by_step_optimization r) j = Some s ->
                    predicted_score s
                    < optimal_predicted_score (optimal_configuration r))
    /\ (forall s, In s (step_by_step_optimization r) ->
                  predicted_score s
                  == optimal_predicted_score (optimal_configuration r) ->
                  optimal_bandwidth (optimal_configuration r) <= step_bandwidth s).
Proof.
  intros Hc. assert (Hb : 0 < bandwidth c) by apply Hc.
  destruct (optimize_network_valid now c Hc)
    as (r & opt & k & E & Hsteps & Hk & Hall & Hfirst & _ & _ & Hconf).
  exists r, opt, k. rewrite Hconf.
  cbn [optimal_bandwidth optimal_predicted_score predicted_congestion
         optimal_video_quality].
  split; [exact E |]. split; [exact Hk |]. split; [repeat split |].
  split; [exact Hall |]. split; [exact Hfirst |].
  intros s Hin Heq.
  destruct (In_nth_error _ _ Hin) as (j & Hj).
  destruct (Nat.lt_ge_cases j k) as [Hlt | Hge].
  { specialize (Hfirst j s Hlt Hj). lra. }
  rewrite Hsteps in Hj, Hk.
  apply steps_nth_error in Hj. destruct Hj as [Hj10 ->].
  apply steps_nth_error in Hk. destruct Hk as [Hk10 ->].
  cbn [scored_step step_bandwidth].
  rewrite !candidates_nth by assumption.
  destruct (Nat.eq_dec k j) as [-> | Hne]; [apply Qle_refl |].
  apply Qlt_le_weak, candidate_formula_increasing; [exact Hb | lia].
Qed.

Lemma C4_optimal_is_first_maximum_witness :
  exists r opt,
    optimize_network "2026-01-01T00:00:00" example_degenerate = Success r
    /\ nth_error (step_by_step_optimization r) 0 = Some opt
    /\ optimal_bandwidth (optimal_configuration r) = step_bandwidth opt.
Proof.
  destruct (C4_optimal_is_first_maximum "2026-01-01T00:00:00" example_degenerate)
    as (r & opt & k & E & Hk & (Hbw & _) & _ & Hfirst & _).
  - vm_compute. repeat split; discriminate.
  - exists r, opt. split; [exact E |]. split; [| exact Hbw].
    destruct k as [| k]; [exact Hk |]. exfalso.
    assert (E' := E). vm_compute in E'. injection E' as <-.
    specialize (Hfirst 0%nat _ (Nat.lt_0_succ k) eq_refl).
    vm_compute in Hfirst. discriminate Hfirst.
Defined.

(** C10.  In exact arithmetic the candidate of index 3 is the input
    bandwidth itself and the score is non-decreasing in the bandwidth with
    the other fields fixed; hence on every valid input the optimal predicted
    score is at least the current score, and the quality improvement and the
    congestion reduction are non-negative. *)
Theorem C10_optimum_not_below_current (now : string) (c : NetworkConditions) :
  valid c ->
  nth 3 (candidates c) 0 == bandwidth c
  /\ (forall b1 b2,
         b1 <= b2 ->
         network_score (analyze_network (with_bandwidth c b1))
         <= network_score (analyze_network (with_bandwidth c b2)))
  /\ exists r,
      optimize_network now c = Success r
      /\ current_score (current_conditions r) = network_score (analyze_network c)
      /\ current_score (current_conditions r)
         <= optimal_predicted_score (optimal_configuration r)
      /\ (let v := optimal_predicted_score (optimal_configuration r)
                   - current_score (current_conditions r) in
          quality_improvement (performance_metrics (optimal_configuration r))
          = (Py.format_1f v ++ "%")%string
          /\ 0 <= v)
      /\ (let v := (100 - current_score (current_conditions r))
                   - (100 - optimal_predicted_score (optimal_configuration r)) in
          congestion_reduction (optimal_configuration r)
          = (Py.format_1f v ++ "%")%string
          /\ 0 <= v).
Proof.
  intros Hc.
  assert (H3 : nth 3 (candidates c) 0 == bandwidth c).
  { rewrite candidates_nth by lia. rewrite candidate_formula_linear.
    cbn [Z.of_nat inject_Z Pos.of_succ_nat Pos.succ]. field. }
  split; [exact H3 |]. split; [apply score_mono_bandwidth |].
  destruct (optimize_network_valid now c Hc)
    as (r & opt & k & E & Hsteps & _ & Hall & _ & _ & Hcur & Hconf).
  exists r. rewrite Hconf, Hcur.
  cbn [optimal_predicted_score performance_metrics quality_improvement
         congestion_reduction].
  assert (Hle : network_score (analyze_network c) <= predicted_score opt).
  { specialize (Hall (scored_step c (nth 3 (candidates c) 0))).
    cbn [scored_step predicted_score] in Hall.
    rewrite (score_compat_bandwidth c _ _ H3), with_own_bandwidth in Hall.
    apply Hall. rewrite Hsteps. apply in_map, nth_In.
    rewrite candidates_length. lia. }
  split; [exact E |]. split; [reflexivity |]. split; [exact Hle |].
  cbv zeta. repeat split; lra.
Qed.

Lemma C10_optimum_not_below_current_witness :
  exists r,
    optimize_network "2026-01-01T00:00:00" example_good = Success r
    /\ current_score (current_conditions r)
       <= optimal_predicted_score (optimal_configuration r).
Proof.
  destruct (C10_optimum_not_below_current "2026-01-01T00:00:00" example_good)
    as (_ & _ & r & E & _ & Hle & _).
  - vm_compute. repeat split; discriminate.
  - exists r. split; [exact E | exact Hle].
Defined.

(** ** The examples of the specification, executed *)

Example analyze_example_good :
  analyze_network example_good
  = {| network_score := 100;
       congestion_level := "Low";
       performance_rating := "Excellent";
       recommendations := [] |}.
Proof. vm_compute. reflexivity. Qed.

Example analyze_example_degenerate :
  analyze_network example_degenerate
  = {| network_score := 0;
       congestion_level := "Severe";
       performance_rating := "Critical";
       recommendations :=
         [msg_packet_loss; msg_latency; msg_jitter; msg_throughput] |}.
Proof. vm_compute. reflexivity. Qed.

(** On the second example every candidate scores 0, and the first one,
    half the input bandwidth, is selected. *)
Example optimize_example_degenerate :
  exists r,
    optimize_network "2026-01-01T00:00:00" example_degenerate = Success r
    /\ map predicted_score (step_by_step_optimization r)
       = [0; 0; 0; 0; 0; 0; 0; 0; 0; 0]
    /\ Qred (optimal_bandwidth (optimal_configuration r)) = 1 # 2
    /\ performance_metrics (optimal_configuration r)
       = {| bandwidth_improvement := "-50.0%";
            quality_improvement := "0.0%";
            network_efficiency := "0.0 score/Mbps" |}.
Proof. eexists. vm_compute. repeat split. Qed.

(** A link that gains from more bandwidth: the score rises with the
    candidates until the bandwidth term saturates at 6 Mbps, and the first
    saturated candidate is selected. *)
Example optimize_example_saturation :
  exists r,
    optimize_network "2026-01-01T00:00:00"
      {| bandwidth := 4; throughput := 0.5; packet_loss := 10;
         latency := 40; jitter := 4 |} = Success r
    /\ map (fun s => Qred (predicted_score s)) (step_by_step_optimization r)
       = [60; 190 # 3; 200 # 3; 70; 220 # 3; 230 # 3; 80; 80; 80; 80]
    /\ Qred (optimal_bandwidth (optimal_configuration r)) = 6
    /\ quality_improvement (performance_metrics (optimal_configuration r))
       = "10.0%"%string.
Proof. eexists. vm_compute. repeat split. Qed.

(** * Further properties of the scorer *)

Lemma raw_score_dominance (c1 c2 : NetworkConditions) :
  at_least_as_good c1 c2 -> raw_score c2 <= raw_score c1.
Proof.
  intros (Hb & Ht & Hp & Hl & Hj). unfold raw_score.
  destruct (min_cases (bandwidth c1 * 5) 30) as [[H1 ->] | [H1 ->]];
    destruct (min_cases (bandwidth c2 * 5) 30) as [[H2 ->] | [H2 ->]]; lra.
Qed.

(** X1.  A link that is at least as good in every field (more bandwidth and
    throughput, less packet loss, latency and jitter) never scores lower,
    and its congestion level and performance rating are never worse. *)
Theorem X1_better_link_scores_higher (c1 c2 : NetworkConditions) :
  at_least_as_good c1 c2 ->
  network_score (analyze_network c2) <= network_score (analyze_network c1)
  /\ (congestion_quality (congestion_level (analyze_network c2))
      <= congestion_quality (congestion_level (analyze_network c1)))%nat
  /\ (rating_quality (performance_rating (analyze_network c2))
      <= rating_quality (performance_rating (analyze_network c1)))%nat.
Proof.
  intros H. apply raw_score_dominance, normalize_mono in H.
  cbn [analyze_network network_score congestion_level performance_rating].
  split; [exact H |].
  split; [now apply congestion_of_mono | now apply rating_of_mono].
Qed.

Lemma X1_better_link_scores_higher_witness :
  network_score (analyze_network example_degenerate)
  <= network_score (analyze_network example_good).
Proof.
  apply (X1_better_link_scores_higher example_good example_degenerate).
  vm_compute. repeat split; discriminate.
Defined.

(** X2.  The two ladders of [analyze_network] only ever produce six of the
    twenty combinations of congestion level and performance rating, and
    each of the six is produced by some valid input. *)
Theorem X2_band_pairs :
  (forall c,
      In (congestion_level (analyze_network c),
          performance_rating (analyze_network c)) band_pairs)
  /\ (forall p, In p band_pairs ->
                exists c, valid c
                          /\ (congestion_level (analyze_network c),
                              performance_rating (analyze_network c)) = p).
Proof.
  split.
  - intros c. cbn [analyze_network congestion_level performance_rating].
    generalize (normalize (raw_score c)). intros s.
    unfold congestion_of, rating_of, band_pairs.
    band_cases; cbn [In]; try tauto; exfalso; lra.
  - intros p Hp.
    pose (mk := fun pl : Q =>
      {| bandwidth := 10; throughput := 0; packet_loss := pl;
         latency := 0; jitter := 0 |}).
    assert (Hv : forall pl, 0 <= pl <= 100 -> valid (mk pl)).
    { intros pl [H0 H1]. unfold valid, mk. cbn. repeat split; lra. }
    repeat (destruct Hp as [<- | Hp]); [ .. | destruct Hp].
    + exists (mk 15). split; [apply Hv; lra | vm_compute; reflexivity].
    + exists (mk 22). split; [apply Hv; lra | vm_compute; reflexivity].
    + exists (mk 27). split; [apply Hv; lra | vm_compute; reflexivity].
    + exists (mk 30). split; [apply Hv; lra | vm_compute; reflexivity].
    + exists (mk 40). split; [apply Hv; lra | vm_compute; reflexivity].
    + exists (mk 50). split; [apply Hv; lra | vm_compute; reflexivity].
Qed.

(** X3.  On a valid input, jitter of 30 ms or more, latency of 300 ms or
    more, or packet loss of 75 % or more each force the score to 0 with the
    bands Severe and Critical; in particular the jitter recommendation is
    only ever given together with a score of 0. *)
Theorem X3_knock_out_thresholds (c : NetworkConditions) :
  valid c ->
  (30 <= jitter c \/ 300 <= latency c \/ 75 <= packet_loss c
   \/ In msg_jitter (recommendations (analyze_network c))) ->
  network_score (analyze_network c) == 0
  /\ congestion_level (analyze_network c) = "Severe"%string
  /\ performance_rating (analyze_network c) = "Critical"%string.
Proof.
  intros (Hb & [Ht0 Ht1] & [Hp0 Hp1] & Hl & Hj) H.
  assert (Hjit : In msg_jitter (recommendations (analyze_network c)) ->
                 30 <= jitter c).
  { cbn [analyze_network recommendations]. unfold recommendations_of, Py.gt.
    destruct (lt_reflect 30 (jitter c)) as [H30 | H30]; [intros _; lra |].
    destruct (Py.lt 5 (packet_loss c)), (Py.lt 100 (latency c)),
      (Py.lt (throughput c) 0.3); cbn [app In]; intros Hin;
      repeat (destruct Hin as [Hin | Hin]; try discriminate Hin);
      contradiction. }
  assert (Hraw : raw_score c <= 0).
  { unfold raw_score.
    destruct (min_cases (bandwidth c * 5) 30) as [[H1 ->] | [H1 ->]];
      destruct H as [H | [H | [H | H]]]; try apply Hjit in H; lra. }
  assert (E : normalize (raw_score c) == 0).
  { destruct (normalize_cases (raw_score c)) as [[_ E] | [[H1 _] | [H1 _]]];
      [exact E | lra | lra]. }
  cbn [analyze_network network_score congestion_level performance_rating].
  split; [exact E |]. rewrite E. split; reflexivity.
Qed.

Lemma X3_knock_out_thresholds_witness :
  network_score (analyze_network example_degenerate) == 0.
Proof.
  apply (X3_knock_out_thresholds example_degenerate).
  - vm_compute. repeat split; discriminate.
  - left. vm_compute. discriminate.
Defined.

(** * Further properties of the stream-profile selector *)

Lemma quality_follows_congestion (c : NetworkConditions) (score : Q) :
  streaming_quality (get_video_recommendations c score)
  = quality_for_congestion (congestion_of score).
Proof.
  unfold get_video_recommendations, congestion_of.
  band_cases; reflexivity.
Qed.

(** * Further properties of the request handlers *)

Lemma candidates_last (c : NetworkConditions) :
  nth 9 (candidates c) 0 = bandwidth c * 2.0.
Proof.
  unfold candidates, Np.linspace.
  change (10 - 1)%nat with 9%nat.
  change (0 <? 9)%nat with true. change (1 <? 10)%nat with true.
  cbv beta iota zeta.
  destruct (Qeq_bool _ 0); reflexivity.
Qed.

Lemma candidates_sorted (c : NetworkConditions) (i j : nat) :
  0 < bandwidth c -> (i <= j < 10)%nat ->
  nth i (candidates c) 0 <= nth j (candidates c) 0.
Proof.
  intros Hb [Hij Hj]. rewrite !candidates_nth by lia.
  destruct (Nat.eq_dec i j) as [-> | Hne]; [apply Qle_refl |].
  apply Qlt_le_weak, candidate_formula_increasing; [exact Hb | lia].
Qed.

(** X6.  In the response of [optimize_network] the steps are sorted: along
    the list the bandwidth and the predicted score never decrease.  The
    optimal predicted score is therefore the score of the last step, the
    one at twice the input bandwidth. *)
Theorem X6_steps_sorted (now : string) (c : NetworkConditions) :
  valid c ->
  exists r,
    optimize_network now c = Success r
    /\ (forall i j s t,
           (i <= j)%nat ->
           nth_error (step_by_step_optimization r) i = Some s ->
           nth_error (step_by_step_optimization r) j = Some t ->
           step_bandwidth s <= step_bandwidth t
           /\ predicted_score s <= predicted_score t)
    /\ optimal_predicted_score (optimal_configuration r)
       == network_score (analyze_network (with_bandwidth c (bandwidth c * 2.0))).
Proof.
  intros Hc. assert (Hb : 0 < bandwidth c) by apply Hc.
  destruct (optimize_network_valid now c Hc)
    as (r & opt & k & E & Hsteps & Hk & Hall & _ & _ & _ & Hconf).
  exists r. split; [exact E |].
  assert (Hsorted : forall i j s t,
             (i <= j)%nat ->
             nth_error (step_by_step_optimization r) i = Some s ->
             nth_error (step_by_step_optimization r) j = Some t ->
             step_bandwidth s <= step_bandwidth t
             /\ predicted_score s <= predicted_score t).
  { intros i j s t Hij Hs Ht. rewrite Hsteps in Hs, Ht.
    apply steps_nth_error in Hs. destruct Hs as [Hi ->].
    apply steps_nth_error in Ht. destruct Ht as [Hj ->].
    cbn [scored_step step_bandwidth predicted_score].
    assert (H := candidates_sorted c i j Hb (conj Hij Hj)).
    split; [exact H | now apply score_mono_bandwidth]. }
  split; [exact Hsorted |].
  rewrite Hconf. cbn [optimal_predicted_score].
  assert (H9 : nth_error (step_by_step_optimization r) 9
               = Some (scored_step c (bandwidth c * 2.0))).
  { rewrite Hsteps, nth_error_map, (nth_error_nth' _ 0)
      by (rewrite candidates_length; lia).
    now rewrite candidates_last. }
  apply Qle_antisym.
  - assert (Hk9 : (k <= 9)%nat).
    { rewrite Hsteps in Hk. apply steps_nth_error in Hk. lia. }
    apply (Hsorted k 9%nat opt _ Hk9 Hk H9).
  - apply (Hall (scored_step c (bandwidth c * 2.0))).
    now apply nth_error_In with 9%nat.
Qed.

Lemma X6_steps_sorted_witness :
  exists r,
    optimize_network "2026-01-01T00:00:00" example_good = Success r
    /\ optimal_predicted_score (optimal_configuration r)
       == network_score
            (analyze_network
               (with_bandwidth example_good (bandwidth example_good * 2.0))).
Proof.
  destruct (X6_steps_sorted "2026-01-01T00:00:00" example_good)
    as (r & E & _ & H).
  - vm_compute. repeat split; discriminate.
  - exists r. split; [exact E | exact H].
Defined.

(** X7.  A better score always comes with more bandwidth: on a valid input,
    when the optimal bandwidth is at most the input bandwidth the optimal
    predicted score equals the current score, and when the optimal
    predicted score exceeds the current score the optimal bandwidth exceeds
    the input bandwidth. *)
Theorem X7_better_score_needs_more_bandwidth (now : string) (c : NetworkConditions) :
  valid c ->
  exists r,
    optimize_network now c = Success r
    /\ (optimal_bandwidth (optimal_configuration r) <= bandwidth c ->
        optimal_predicted_score (optimal_configuration r)
        == current_score (current_conditions r))
    /\ (current_score (current_conditions r)
        < optimal_predicted_score (optimal_configuration r) ->
        bandwidth c < optimal_bandwidth (optimal_configuration r)).
Proof.
  intros Hc. assert (Hb : 0 < bandwidth c) by apply Hc.
  destruct (optimize_network_valid now c Hc)
    as (r & opt & k & E & Hsteps & Hk & Hall & _ & _ & Hcur & Hconf).
  exists r. split; [exact E |].
  rewrite Hconf, Hcur. cbn [optimal_bandwidth optimal_predicted_score].
  assert (H9 : In (scored_step c (bandwidth c * 2.0))
                  (step_by_step_optimization r)).
  { rewrite Hsteps. apply in_map. rewrite <- (candidates_last c).
    apply nth_In. rewrite candidates_length. lia. }
  assert (Hle : network_score (analyze_network c) <= predicted_score opt).
  { apply Qle_trans with (predicted_score (scored_step c (bandwidth c * 2.0)));
      [| now apply Hall].
    cbn [scored_step predicted_score].
    assert (H := score_mono_bandwidth c (bandwidth c) (bandwidth c * 2.0)).
    rewrite with_own_bandwidth in H. apply H. lra. }
  rewrite Hsteps in Hk. apply steps_nth_error in Hk. destruct Hk as [_ ->].
  cbn [scored_step step_bandwidth predicted_score] in *.
  assert (Hdown : nth k (candidates c) 0 <= bandwidth c ->
                  network_score
                    (analyze_network (with_bandwidth c (nth k (candidates c) 0)))
                  <= network_score (analyze_network c)).
  { intros H. apply (score_mono_bandwidth c) in H.
    now rewrite with_own_bandwidth in H. }
  split.
  - intros H. apply Hdown in H. lra.
  - intros H. apply Qnot_le_lt. intros Habs. apply Hdown in Habs. lra.
Qed.

Lemma X7_better_score_needs_more_bandwidth_witness :
  exists r,
    optimize_network "2026-01-01T00:00:00" example_good = Success r
    /\ (optimal_bandwidth (optimal_configuration r) <= bandwidth example_good ->
        optimal_predicted_score (optimal_configuration r)
        == current_score (current_conditions r)).
Proof.
  destruct (X7_better_score_needs_more_bandwidth "2026-01-01T00:00:00" example_good)
    as (r & E & H & _).
  - vm_compute. repeat split; discriminate.
  - exists r. split; [exact E | exact H].
Defined.

(** What the optimizer returns when the lowest candidate already scores as
    much as the highest one. *)
Lemma flat_optimum (now : string) (c : NetworkConditions) :
  valid c ->
  network_score (analyze_network (with_bandwidth c (bandwidth c * 0.5)))
  == network_score (analyze_network (with_bandwidth c (bandwidth c * 2.0))) ->
  exists r,
    optimize_network now c = Success r
    /\ optimal_bandwidth (optimal_configuration r) == bandwidth c * 0.5
    /\ bandwidth_improvement (performance_metrics (optimal_configuration r))
       = "-50.0%"%string
    /\ quality_improvement (performance_metrics (optimal_configuration r))
       = "0.0%"%string.
Proof.
  intros Hc Hflat. assert (Hb : 0 < bandwidth c) by apply Hc.
  destruct (optimize_network_valid now c Hc)
    as (r & opt & k & E & Hsteps & Hk & Hall & Hfirst & _ & _ & Hconf).
  exists r. split; [exact E |].
  rewrite Hconf.
  cbn [optimal_bandwidth performance_metrics bandwidth_improvement
         quality_improvement].
  assert (H0 : nth 0 (candidates c) 0 == bandwidth c * 0.5).
  { rewrite candidates_nth by lia. rewrite candidate_formula_linear.
    cbn [Z.of_nat inject_Z]. field. }
  assert (Hs0 : nth_error (step_by_step_optimization r) 0
                = Some (scored_step c (nth 0 (candidates c) 0))).
  { rewrite Hsteps, nth_error_map, (nth_error_nth' _ 0)
      by (rewrite candidates_length; lia).
    reflexivity. }
  assert (Hhi : predicted_score opt
                <= network_score
                     (analyze_network (with_bandwidth c (bandwidth c * 2.0)))).
  { rewrite Hsteps in Hk. apply steps_nth_error in Hk. destruct Hk as [Hk10 ->].
    cbn [scored_step predicted_score]. apply score_mono_bandwidth.
    rewrite <- (candidates_last c). apply candidates_sorted; [exact Hb | lia]. }
  assert (Hlo : network_score
                  (analyze_network (with_bandwidth c (bandwidth c * 0.5)))
                <= predicted_score opt).
  { rewrite <- (score_compat_bandwidth c _ _ H0).
    apply (Hall (scored_step c (nth 0 (candidates c) 0))).
    now apply nth_error_In with 0%nat. }
  assert (Hk0 : k = 0%nat).
  { destruct k as [| k]; [reflexivity | exfalso].
    specialize (Hfirst 0%nat _ (Nat.lt_0_succ k) Hs0).
    cbn [scored_step predicted_score] in Hfirst.
    rewrite (score_compat_bandwidth c _ _ H0) in Hfirst. lra. }
  subst k. rewrite Hs0 in Hk. injection Hk as <-.
  cbn [scored_step step_bandwidth predicted_score] in *.
  split; [exact H0 |].
  assert (Eimp : (nth 0 (candidates c) 0 / bandwidth c - 1) * 100 == - (50)).
  { rewrite H0. field. lra. }
  assert (Ecur : network_score (analyze_network (with_bandwidth c (nth 0 (candidates c) 0)))
                 - network_score (analyze_network c) == 0).
  { assert (H1 := score_mono_bandwidth c (bandwidth c * 0.5) (bandwidth c)).
    assert (H2 := score_mono_bandwidth c (bandwidth c) (bandwidth c * 2.0)).
    rewrite with_own_bandwidth in H1, H2.
    rewrite (score_compat_bandwidth c _ _ H0).
    specialize (H1 ltac:(lra)). specialize (H2 ltac:(lra)). lra. }
  rewrite Eimp, Ecur. split; reflexivity.
Qed.

Lemma knock_out_raw (c : NetworkConditions) :
  throughput c <= 1 -> 0 <= packet_loss c -> 0 <= latency c -> 0 <= jitter c ->
  30 <= jitter c \/ 300 <= latency c \/ 75 <= packet_loss c ->
  raw_score c <= 0.
Proof.
  intros Ht Hp Hl Hj H. unfold raw_score.
  destruct (min_cases (bandwidth c * 5) 30) as [[H1 ->] | [H1 ->]];
    destruct H as [H | [H | H]]; lra.
Qed.

(** X8.  When the score at half the input bandwidth already equals the score
    at twice the input bandwidth, the optimizer selects the first candidate:
    it recommends half the input bandwidth and reports a bandwidth
    improvement of -50.0% and a quality improvement of 0.0%. *)
Theorem X8_flat_scores_select_half (now : string) (c : NetworkConditions) :
  valid c ->
  network_score (analyze_network (with_bandwidth c (bandwidth c * 0.5)))
  == network_score (analyze_network (with_bandwidth c (bandwidth c * 2.0))) ->
  exists r,
    optimize_network now c = Success r
    /\ optimal_bandwidth (optimal_configuration r) == bandwidth c * 0.5
    /\ bandwidth_improvement (performance_metrics (optimal_configuration r))
       = "-50.0%"%string
    /\ quality_improvement (performance_metrics (optimal_configuration r))
       = "0.0%"%string.
Proof. apply flat_optimum. Qed.

Lemma X8_flat_scores_select_half_witness :
  exists r,
    optimize_network "2026-01-01T00:00:00" example_degenerate = Success r
    /\ optimal_bandwidth (optimal_configuration r) == 0.5.
Proof.
  destruct (X8_flat_scores_select_half "2026-01-01T00:00:00" example_degenerate)
    as (r & E & H & _).
  - vm_compute. repeat split; discriminate.
  - vm_compute. reflexivity.
  - exists r. split; [exact E | exact H].
Defined.

Lemma saturated_flat (c : NetworkConditions) :
  valid c ->
  12 <= bandwidth c \/ 30 <= jitter c \/ 300 <= latency c \/ 75 <= packet_loss c ->
  network_score (analyze_network (with_bandwidth c (bandwidth c * 0.5)))
  == network_score (analyze_network (with_bandwidth c (bandwidth c * 2.0))).
Proof.
  intros Hc H.
  destruct Hc as (Hb & [Ht0 Ht1] & [Hp0 Hp1] & Hl & Hj).
  cbn [analyze_network network_score].
  destruct H as [H | H].
  - apply normalize_compat. unfold raw_score.
    cbn [with_bandwidth bandwidth throughput packet_loss latency jitter].
    destruct (min_cases (bandwidth c * 0.5 * 5) 30) as [[H1 ->] | [H1 ->]];
      destruct (min_cases (bandwidth c * 2.0 * 5) 30) as [[H2 ->] | [H2 ->]];
      lra.
  - assert (Hraw : forall bw, raw_score (with_bandwidth c bw) <= 0)
      by (intros bw; now apply knock_out_raw).
    destruct (normalize_cases (raw_score (with_bandwidth c (bandwidth c * 0.5))))
      as [[_ E1] | [[H1 _] | [H1 _]]];
      [| specialize (Hraw (bandwidth c * 0.5)); lra
       | specialize (Hraw (bandwidth c * 0.5)); lra].
    destruct (normalize_cases (raw_score (with_bandwidth c (bandwidth c * 2.0))))
      as [[_ E2] | [[H2 _] | [H2 _]]];
      [| specialize (Hraw (bandwidth c * 2.0)); lra
       | specialize (Hraw (bandwidth c * 2.0)); lra].
    now rewrite E1, E2.
Qed.

(** X9.  On a valid input whose bandwidth is at least 12 Mbps, or whose
    jitter is at least 30 ms, latency at least 300 ms or packet loss at
    least 75 %, every candidate scores the same, so the optimizer recommends
    halving the bandwidth: bandwidth improvement -50.0%, quality improvement
    0.0%. *)
Theorem X9_saturated_input_is_halved (now : string) (c : NetworkConditions) :
  valid c ->
  12 <= bandwidth c \/ 30 <= jitter c \/ 300 <= latency c \/ 75 <= packet_loss c ->
  exists r,
    optimize_network now c = Success r
    /\ optimal_bandwidth (optimal_configuration r) == bandwidth c * 0.5
    /\ bandwidth_improvement (performance_metrics (optimal_configuration r))
       = "-50.0%"%string
    /\ quality_improvement (performance_metrics (optimal_configuration r))
       = "0.0%"%string.
Proof.
  intros Hc H. apply flat_optimum; [exact Hc | now apply saturated_flat].
Qed.

Lemma X9_saturated_input_is_halved_witness :
  exists r,
    optimize_network "2026-01-01T00:00:00"
      {| bandwidth := 20; throughput := 0.5; packet_loss := 10;
         latency := 40; jitter := 4 |} = Success r
    /\ bandwidth_improvement (performance_metrics (optimal_configuration r))
       = "-50.0%"%string.
Proof.
  destruct (X9_saturated_input_is_halved "2026-01-01T00:00:00"
              {| bandwidth := 20; throughput := 0.5; packet_loss := 10;
                 latency := 40; jitter := 4 |})
    as (r & E & _ & H & _).
  - vm_compute. repeat split; discriminate.
  - left. vm_compute. discriminate.
  - exists r. split; [exact E | exact H].
Defined.

Lemma Success_inj {A} (a b : A) : Success a = Success b -> a = b.
Proof. intros H. now injection H. Qed.

(** The fields of the answer that repeat the input. *)
Lemma optimize_network_echo (now : string) (c : NetworkConditions)
      (r : OptimizeResponse) :
  optimize_network now c = Success r ->
  cur_bandwidth (current_conditions r) = bandwidth c
  /\ optimize_recommendations r = recommendations (analyze_network c).
Proof.
  unfold optimize_network.
  destruct (Py.mapM (optimization_step c) (candidates c)) as [l |];
    cbn [Py.bind try_except]; [| intros E; discriminate E].
  destruct (Py.max_key predicted_score l) as [m |];
    cbn [Py.bind try_except]; [| intros E; discriminate E].
  destruct (Py.div (step_bandwidth m) (bandwidth c));
    cbn [Py.bind try_except]; [| intros E; discriminate E].
  destruct (Py.div (predicted_score m) (step_bandwidth m));
    cbn [Py.bind try_except]; [| intros E; discriminate E].
  intros E. apply Success_inj in E. subst r. split; reflexivity.
Qed.

(** X11.  The bandwidth improvement the optimizer reports is the printed
    value of [(optimal / current - 1) * 100], which always lies between -50
    and 100: the optimizer never recommends less than half or more than
    twice the input bandwidth. *)
Theorem X11_bandwidth_improvement_range (now : string) (c : NetworkConditions) :
  valid c ->
  exists r,
    optimize_network now c = Success r
    /\ bandwidth c * 0.5 <= optimal_bandwidth (optimal_configuration r)
    /\ optimal_bandwidth (optimal_configuration r) <= bandwidth c * 2.0
    /\ (let v := (optimal_bandwidth (optimal_configuration r)
                  / cur_bandwidth (current_conditions r) - 1) * 100 in
        bandwidth_improvement (performance_metrics (optimal_configuration r))
        = (Py.format_1f v ++ "%")%string
        /\ - (50) <= v /\ v <= 100).
Proof.
  intros Hc. assert (Hb : 0 < bandwidth c) by apply Hc.
  destruct (optimize_network_valid now c Hc)
    as (r & opt & k & E & Hsteps & Hk & _ & _ & _ & _ & Hconf).
  exists r. split; [exact E |]. rewrite Hconf.
  assert (Ecur : cur_bandwidth (current_conditions r) = bandwidth c)
    by apply (optimize_network_echo now c r E).
  rewrite Ecur.
  cbn [optimal_bandwidth performance_metrics bandwidth_improvement].
  assert (Hrange : bandwidth c * 0.5 <= step_bandwidth opt
                   /\ step_bandwidth opt <= bandwidth c * 2.0).
  { rewrite Hsteps in Hk. apply nth_error_In, in_map_iff in Hk.
    destruct Hk as (bw & <- & Hbw). cbn [scored_step step_bandwidth].
    now apply candidates_range. }
  destruct Hrange as [Hlo Hhi].
  split; [exact Hlo |]. split; [exact Hhi |].
  cbv zeta. split; [reflexivity |].
  assert (H1 : 0.5 <= step_bandwidth opt / bandwidth c)
    by (apply Qle_shift_div_l; [exact Hb | lra]).
  assert (H2 : step_bandwidth opt / bandwidth c <= 2.0)
    by (apply Qle_shift_div_r; [exact Hb | lra]).
  split; lra.
Qed.

Lemma X11_bandwidth_improvement_range_witness :
  exists r,
    optimize_network "2026-01-01T00:00:00" example_good = Success r
    /\ optimal_bandwidth (optimal_configuration r) <= bandwidth example_good * 2.0.
Proof.
  destruct (X11_bandwidth_improvement_range "2026-01-01T00:00:00" example_good)
    as (r & E & _ & H & _).
  - vm_compute. repeat split; discriminate.
  - exists r. split; [exact E | exact H].
Defined.

(** X13.  In every answer the streaming quality goes with the congestion
    level: Ultra High with Low, High with Moderate, Medium with High and Low
    with Severe.  This holds for the profile of [analyze_network_conditions]
    and, in [optimize_network], for each step and for the optimal
    configuration. *)
Theorem X13_quality_matches_congestion (now : string) (c : NetworkConditions) :
  valid c ->
  (exists ra,
      analyze_network_conditions now c = Success ra
      /\ streaming_quality (video_streaming ra)
         = quality_for_congestion (congestion_level (analysis_results ra)))
  /\ (exists ro,
         optimize_network now c = Success ro
         /\ (forall s, In s (step_by_step_optimization ro) ->
                       streaming_quality (video_quality s)
                       = quality_for_congestion (step_congestion_level s))
         /\ streaming_quality (optimal_video_quality (optimal_configuration ro))
            = quality_for_congestion
                (predicted_congestion (optimal_configuration ro))).
Proof.
  intros Hc. assert (Hb : 0 < bandwidth c) by apply Hc. split.
  - unfold analyze_network_conditions. rewrite (div_pos _ _ Hb).
    cbn [Py.bind try_except]. eexists. split; [reflexivity |].
    cbn [video_streaming analysis_results analyze_network congestion_level
           network_score].
    apply quality_follows_congestion.
  - destruct (optimize_network_valid now c Hc)
      as (ro & opt & k & E & Hsteps & Hk & _ & _ & _ & _ & Hconf).
    exists ro. split; [exact E |].
    assert (Hall : forall s, In s (step_by_step_optimization ro) ->
                             streaming_quality (video_quality s)
                             = quality_for_congestion (step_congestion_level s)).
    { intros s Hs. rewrite Hsteps in Hs. apply in_map_iff in Hs.
      destruct Hs as (bw & <- & _).
      cbn [scored_step video_quality step_congestion_level analyze_network
             congestion_level network_score].
      apply quality_follows_congestion. }
    split; [exact Hall |]. rewrite Hconf.
    cbn [optimal_video_quality predicted_congestion].
    apply Hall. now apply nth_error_In with k.
Qed.

Lemma X13_quality_matches_congestion_witness :
  exists ra,
    analyze_network_conditions "2026-01-01T00:00:00" example_good = Success ra
    /\ streaming_quality (video_streaming ra)
       = quality_for_congestion (congestion_level (analysis_results ra)).
Proof.
  apply (X13_quality_matches_congestion "2026-01-01T00:00:00" example_good).
  vm_compute. repeat split; discriminate.
Defined.

(** X14.  The two recommendations of the service can contradict each other:
    on a valid input with jitter of 30 ms or more, latency of 300 ms or
    more, or packet loss of 75 % or more, [analyze_network_conditions]
    recommends 1.5 times the bandwidth (potential improvement 50.0%) while
    [optimize_network] recommends half of it (bandwidth improvement
    -50.0%). *)
Theorem X14_heuristic_and_search_disagree (now : string) (c : NetworkConditions) :
  valid c ->
  30 <= jitter c \/ 300 <= latency c \/ 75 <= packet_loss c ->
  exists ra ro,
    analyze_network_conditions now c = Success ra
    /\ optimize_network now c = Success ro
    /\ recommended_bandwidth (optimization ra) = bandwidth c * 1.5
    /\ potential_improvement (optimization ra) = "50.0%"%string
    /\ optimal_bandwidth (optimal_configuration ro) == bandwidth c * 0.5
    /\ bandwidth_improvement (performance_metrics (optimal_configuration ro))
       = "-50.0%"%string.
Proof.
  intros Hc H. assert (Hb : 0 < bandwidth c) by apply Hc.
  destruct (flat_optimum now c Hc) as (ro & Eo & Hbw & Himp & _).
  { apply saturated_flat; [exact Hc | now right]. }
  assert (Hlow : Py.lt (network_score (analyze_network c)) 60 = true).
  { apply lt_iff. cbn [analyze_network network_score].
    assert (Hraw : raw_score c <= 0).
    { destruct Hc as (_ & [_ Ht1] & [Hp0 _] & Hl & Hj).
      now apply knock_out_raw. }
    destruct (normalize_cases (raw_score c)) as [[_ E] | [[H1 _] | [H1 _]]];
      [rewrite E | |]; lra. }
  unfold analyze_network_conditions. rewrite Hlow.
  rewrite (div_pos _ _ Hb). cbn [Py.bind try_except].
  eexists. exists ro. split; [reflexivity |]. split; [exact Eo |].
  cbn [optimization recommended_bandwidth potential_improvement].
  split; [reflexivity |]. split.
  { rewrite min_is_Qmin, (half_more_ratio _ Hb). reflexivity. }
  split; [exact Hbw | exact Himp].
Qed.

Lemma X14_heuristic_and_search_disagree_witness :
  exists ra ro,
    analyze_network_conditions "2026-01-01T00:00:00" example_degenerate = Success ra
    /\ optimize_network "2026-01-01T00:00:00" example_degenerate = Success ro
    /\ recommended_bandwidth (optimization ra) = bandwidth example_degenerate * 1.5
    /\ optimal_bandwidth (optimal_configuration ro)
       == bandwidth example_degenerate * 0.5.
Proof.
  destruct (X14_heuristic_and_search_disagree "2026-01-01T00:00:00"
              example_degenerate)
    as (ra & ro & Ea & Eo & Hrec & _ & Hopt & _).
  - vm_compute. repeat split; discriminate.
  - left. vm_compute. discriminate.
  - exists ra, ro. repeat split; assumption.
Defined.

(** X15.  From 6 Mbps on the bandwidth term of the score is at its cap, so
    the optimizer cannot improve the score: on a valid input with bandwidth
    of at least 6 the optimal predicted score equals the current score, and
    the quality improvement and the congestion reduction are both 0.0%. *)
Theorem X15_no_gain_from_6_mbps (now : string) (c : NetworkConditions) :
  valid c ->
  6 <= bandwidth c ->
  exists r,
    optimize_network now c = Success r
    /\ optimal_predicted_score (optimal_configuration r)
       == current_score (current_conditions r)
    /\ quality_improvement (performance_metrics (optimal_configuration r))
       = "0.0%"%string
    /\ congestion_reduction (optimal_configuration r) = "0.0%"%string.
Proof.
  intros Hc H6. assert (Hb : 0 < bandwidth c) by apply Hc.
  destruct (optimize_network_valid now c Hc)
    as (r & opt & k & E & Hsteps & Hk & Hall & _ & _ & Hcur & Hconf).
  exists r. split; [exact E |].
  rewrite Hconf, Hcur.
  cbn [optimal_predicted_score performance_metrics quality_improvement
         congestion_reduction].
  assert (Hcap : forall bw, 6 <= bw ->
                   network_score (analyze_network (with_bandwidth c bw))
                   == network_score (analyze_network c)).
  { intros bw Hbw. cbn [analyze_network network_score].
    apply normalize_compat. unfold raw_score.
    cbn [with_bandwidth bandwidth throughput packet_loss latency jitter].
    destruct (min_cases (bw * 5) 30) as [[H1 ->] | [H1 ->]];
      destruct (min_cases (bandwidth c * 5) 30) as [[H2 ->] | [H2 ->]]; lra. }
  assert (Hle : network_score (analyze_network c) <= predicted_score opt).
  { rewrite <- (Hcap (bandwidth c * 2.0)) by lra.
    apply (Hall (scored_step c (bandwidth c * 2.0))).
    rewrite Hsteps. apply in_map. rewrite <- (candidates_last c).
    apply nth_In. rewrite candidates_length. lia. }
  assert (Hge : predicted_score opt <= network_score (analyze_network c)).
  { rewrite Hsteps in Hk. apply steps_nth_error in Hk. destruct Hk as [Hk10 ->].
    cbn [scored_step predicted_score].
    rewrite <- (Hcap (bandwidth c * 2.0)) by lra.
    apply score_mono_bandwidth. rewrite <- (candidates_last c).
    apply candidates_sorted; [exact Hb | lia]. }
  assert (Eq1 : predicted_score opt - network_score (analyze_network c) == 0)
    by lra.
  assert (Eq2 : 100 - network_score (analyze_network c)
                - (100 - predicted_score opt) == 0) by lra.
  split; [lra |]. rewrite Eq1, Eq2. split; reflexivity.
Qed.

Lemma X15_no_gain_from_6_mbps_witness :
  exists r,
    optimize_network "2026-01-01T00:00:00" example_good = Success r
    /\ quality_improvement (performance_metrics (optimal_configuration r))
       = "0.0%"%string.
Proof.
  destruct (X15_no_gain_from_6_mbps "2026-01-01T00:00:00" example_good)
    as (r & E & _ & H & _).
  - vm_compute. repeat split; discriminate.
  - vm_compute. discriminate.
  - exists r. split; [exact E | exact H].
Defined.

(** * The optimizer in binary64 *)

Module F64Facts.

Import PrimFloat SpecFloat FloatOps.
#[local] Open Scope float_scope.
#[local] Set Warnings "-inexact-float".

(** A float above zero is not zero. *)
Lemma positive_nonzero (x : float) : F64.gt x 0 = true -> (x =? 0) = false.
Proof.
  unfold F64.gt. intros H.
  rewrite FloatAxioms.ltb_spec in H. rewrite FloatAxioms.eqb_spec.
  change (Prim2SF 0) with (S754_zero false) in *.
  destruct (Prim2SF x) as [s | s | | s m e]; cbn in *;
    try discriminate H; try reflexivity.
  all: destruct s; cbn in *; try discriminate H; reflexivity.
Qed.

Lemma div_positive (a b : float) :
  F64.gt b 0 = true -> F64.div a b = Py.Ok (a / b).
Proof. intros H. unfold F64.div. now rewrite positive_nonzero. Qed.

(** On a valid input the validation of a candidate only tests its sign. *)
Lemma constraints_ok_with_bandwidth (c : F64.NetworkConditions) (bw : float) :
  F64.constraints_ok c = true ->
  F64.constraints_ok (F64.with_bandwidth c bw) = F64.gt bw 0.
Proof.
  unfold F64.constraints_ok. cbn [F64.with_bandwidth F64.bandwidth
    F64.throughput F64.packet_loss F64.latency F64.jitter].
  rewrite !andb_true_iff. intros ((((_ & Ht) & Hp) & Hl) & Hj).
  destruct Ht as [-> ->], Hp as [-> ->]. rewrite Hl, Hj.
  now rewrite !andb_true_r.
Qed.

Lemma optimization_step_cases (c : F64.NetworkConditions) (bw : float) :
  F64.constraints_ok c = true ->
  F64.optimization_step c bw =
    if F64.gt bw 0 then Py.Ok (F64.scored_step c bw)
    else Py.Raise Py.ValidationError.
Proof.
  intros Hc. unfold F64.optimization_step, F64.NetworkConditions_new.
  rewrite (constraints_ok_with_bandwidth c bw Hc).
  destruct (F64.gt bw 0); reflexivity.
Qed.

Lemma mapM_first_error {A B} (f : A -> Py.result B) (g : A -> B)
      (ok : A -> bool) (e : Py.exn) (l : list A) :
  (forall x, f x = if ok x then Py.Ok (g x) else Py.Raise e) ->
  Py.mapM f l = if forallb ok l then Py.Ok (map g l) else Py.Raise e.
Proof.
  intros Hf. induction l as [| x xs IH]; [reflexivity |].
  cbn [Py.mapM forallb map]. rewrite (Hf x).
  destruct (ok x); cbn [Py.bind andb]; [| reflexivity].
  rewrite IH. destruct (forallb ok xs); reflexivity.
Qed.

Lemma max_loop_In {A} (key : A -> float) (l : list A) (best : A) :
  In (F64.max_loop key best l) (best :: l).
Proof.
  revert best. induction l as [| x xs IH]; intros best; [now left |].
  cbn [F64.max_loop].
  destruct (IH (if F64.gt (key x) (key best) then x else best)) as [H | H].
  - destruct (F64.gt (key x) (key best)); rewrite <- H; cbn; tauto.
  - right. now right.
Qed.

Lemma candidates_length_f64 (c : F64.NetworkConditions) :
  List.length (F64.candidates c) = 10%nat.
Proof.
  unfold F64.candidates, F64.linspace.
  change (10 - 1)%nat with 9%nat.
  change (0 <? 9)%nat with true. change (1 <? 10)%nat with true.
  cbv beta iota zeta.
  destruct (_ =? 0); reflexivity.
Qed.

(** What [optimize_network] does on a valid input, by the sign of the
    candidates. *)
Lemma optimize_network_cases (now : string) (c : F64.NetworkConditions) :
  F64.constraints_ok c = true ->
  if forallb (fun bw => F64.gt bw 0) (F64.candidates c)
  then exists r opt,
      F64.optimize_network now c = Success r
      /\ F64.step_by_step_optimization r
         = map (F64.scored_step c) (F64.candidates c)
      /\ In opt (F64.step_by_step_optimization r)
      /\ F64.optimal_bandwidth (F64.optimal_configuration r)
         = F64.step_bandwidth opt
      /\ F64.optimal_predicted_score (F64.optimal_configuration r)
         = F64.predicted_score opt
      /\ network_efficiency
           (F64.performance_metrics (F64.optimal_configuration r))
         = (F64.format_1f (F64.predicted_score opt / F64.step_bandwidth opt)
              ++ " score/Mbps")%string
  else F64.optimize_network now c = HTTPException 500 Py.ValidationError.
Proof.
  intros Hc. unfold F64.optimize_network.
  rewrite (mapM_first_error _ (F64.scored_step c) (fun bw => F64.gt bw 0)
             Py.ValidationError)
    by (intros bw; now apply optimization_step_cases).
  destruct (forallb (fun bw => F64.gt bw 0) (F64.candidates c)) eqn:Hall;
    [| reflexivity].
  cbn [Py.bind].
  assert (Hlen := candidates_length_f64 c).
  destruct (map (F64.scored_step c) (F64.candidates c)) as [| s0 rest] eqn:Emap.
  { apply (f_equal (@List.length _)) in Emap.
    rewrite length_map, Hlen in Emap. discriminate Emap. }
  cbn [F64.max_key Py.bind].
  set (opt := F64.max_loop F64.predicted_score s0 rest).
  assert (Hin : In opt (s0 :: rest)) by apply max_loop_In.
  assert (Hpos : F64.gt (F64.step_bandwidth opt) 0 = true).
  { rewrite <- Emap in Hin. apply in_map_iff in Hin.
    destruct Hin as (bw & <- & Hbw). cbn [F64.scored_step F64.step_bandwidth].
    rewrite forallb_forall in Hall. now apply Hall. }
  assert (Hb : F64.gt (F64.bandwidth c) 0 = true).
  { unfold F64.constraints_ok in Hc. rewrite !andb_true_iff in Hc. tauto. }
  rewrite (div_positive _ _ Hb), (div_positive _ _ Hpos).
  cbn [Py.bind try_except].
  eexists. exists opt. split; [reflexivity |].
  cbn [F64.step_by_step_optimization F64.optimal_configuration
         F64.optimal_bandwidth F64.optimal_predicted_score
         F64.performance_metrics network_efficiency].
  repeat split. exact Hin.
Qed.

(** C8, as stated, fails in binary64: for the valid bandwidth [5e-324], the
    smallest positive float, half the bandwidth rounds to zero and the
    first candidates are [0.0]. *)
Lemma C8_candidates_positive_counterexample : ~ F64.candidates_positive.
Proof.
  intros H. specialize (H F64.example_underflow eq_refl).
  apply Forall_inv in H. vm_compute in H. discriminate H.
Qed.

(** C8, amended.  [network_efficiency] is the optimal predicted score
    divided by the optimal candidate bandwidth, and on a valid input that
    division never divides by zero, because every candidate is validated
    again ([bandwidth > 0]) before it is scored: when every candidate is
    strictly positive the optimizer answers, every step and the optimal
    configuration have a strictly positive bandwidth and the division is
    defined; when some candidate is not strictly positive the handler
    raises [HTTPException] 500 for a validation error before any division.
    In exact arithmetic every candidate of a valid input lies between 0.5
    and 2.0 times the input bandwidth and is strictly positive. *)
Theorem C8_division_guarded (now : string) (c : F64.NetworkConditions) :
  F64.constraints_ok c = true ->
  F64.optimize_network now c <> HTTPException 500 Py.ZeroDivisionError
  /\ (forall r,
         F64.optimize_network now c = Success r ->
         (forall s, In s (F64.step_by_step_optimization r) ->
                    F64.gt (F64.step_bandwidth s) 0 = true)
         /\ F64.gt (F64.optimal_bandwidth (F64.optimal_configuration r)) 0 = true
         /\ F64.div (F64.optimal_predicted_score (F64.optimal_configuration r))
                    (F64.optimal_bandwidth (F64.optimal_configuration r))
            = Py.Ok (F64.optimal_predicted_score (F64.optimal_configuration r)
                     / F64.optimal_bandwidth (F64.optimal_configuration r))
         /\ network_efficiency
              (F64.performance_metrics (F64.optimal_configuration r))
            = (F64.format_1f
                 (F64.optimal_predicted_score (F64.optimal_configuration r)
                  / F64.optimal_bandwidth (F64.optimal_configuration r))
                 ++ " score/Mbps")%string)
  /\ (forallb (fun bw => F64.gt bw 0) (F64.candidates c) = true ->
      exists r, F64.optimize_network now c = Success r)
  /\ (forallb (fun bw => F64.gt bw 0) (F64.candidates c) = false ->
      F64.optimize_network now c = HTTPException 500 Py.ValidationError)
  /\ (forall cq : NetworkConditions,
         valid cq ->
         forall bw, In bw (candidates cq) ->
                    (0 < bw)%Q
                    /\ (bandwidth cq * 0.5 <= bw)%Q
                    /\ (bw <= bandwidth cq * 2.0)%Q).
Proof.
  intros Hc. assert (Hcases := optimize_network_cases now c Hc).
  destruct (forallb (fun bw => F64.gt bw 0) (F64.candidates c)) eqn:Hall.
  - destruct Hcases as (r0 & opt & E & Hsteps & Hin & Hbw & Hsc & Heff).
    assert (Hpos : forall s, In s (F64.step_by_step_optimization r0) ->
                             F64.gt (F64.step_bandwidth s) 0 = true).
    { intros s Hs. rewrite Hsteps in Hs. apply in_map_iff in Hs.
      destruct Hs as (bw & <- & Hbw'). cbn [F64.scored_step F64.step_bandwidth].
      rewrite forallb_forall in Hall. now apply Hall. }
    split; [rewrite E; discriminate |].
    split.
    { intros r Er. rewrite E in Er. apply Success_inj in Er. subst r.
      rewrite Hbw, Hsc.
      split; [exact Hpos |].
      split; [now apply Hpos |].
      split; [apply div_positive; now apply Hpos | exact Heff]. }
    split; [intros _; now exists r0 |].
    split; [discriminate |].
    intros cq Hq bw Hbwq. assert (Hb : (0 < bandwidth cq)%Q) by apply Hq.
    split; [now apply candidates_pos with cq | now apply candidates_range].
  - split; [rewrite Hcases; discriminate |].
    split; [intros r Er; rewrite Hcases in Er; discriminate Er |].
    split; [discriminate |].
    split; [intros _; exact Hcases |].
    intros cq Hq bw Hbwq. assert (Hb : (0 < bandwidth cq)%Q) by apply Hq.
    split; [now apply candidates_pos with cq | now apply candidates_range].
Qed.

Lemma C8_division_guarded_witness :
  F64.optimize_network "2026-01-01T00:00:00" F64.example_underflow
  = HTTPException 500 Py.ValidationError
  /\ exists r,
      F64.optimize_network "2026-01-01T00:00:00" F64.example_good = Success r.
Proof.
  split.
  - apply (C8_division_guarded "2026-01-01T00:00:00" F64.example_underflow);
      vm_compute; reflexivity.
  - apply (C8_division_guarded "2026-01-01T00:00:00" F64.example_good);
      vm_compute; reflexivity.
Defined.

(** ** Where binary64 departs from exact arithmetic *)

(** For the bandwidth [5e-324] the step of the grid rounds to zero and the
    first three candidates are zero. *)
Example grid_underflow :
  firstn 4 (F64.candidates F64.example_underflow)
  = [0; 0; 0; 0x1p-1074].
Proof. vm_compute. reflexivity. Qed.

(** For the bandwidth [1e308] the upper end of the grid is infinite, the
    first candidate is not a number, and it fails validation. *)
Example grid_overflow :
  map F64.format_1f (firstn 2 (F64.candidates F64.example_overflow))
  = ["nan"; "inf"]%string
  /\ F64.optimize_network "2026-01-01T00:00:00" F64.example_overflow
     = HTTPException 500 Py.ValidationError.
Proof. split; vm_compute; reflexivity. Qed.

(** For the bandwidth [6.2] the fourth candidate is one unit in the last
    place above the input bandwidth. *)
Example fourth_candidate_rounds :
  nth 3 (F64.candidates
           {| F64.bandwidth := 6.2; F64.throughput := 0.5;
              F64.packet_loss := 0; F64.latency := 20; F64.jitter := 5 |}) 0
  = 0x1.8cccccccccccep+2
  /\ (6.2 <? 0x1.8cccccccccccep+2) = true.
Proof. split; vm_compute; reflexivity. Qed.

End F64Facts.
